(** * Deratti_BOX: a model of [app.js]

    The movie-browser page is a single script: a credential kept in
    [localStorage], a cancellable [fetch] wrapper, a card renderer and the
    event wiring with a debounced search box.  This file embeds that script
    as functions over an explicit browser state and proves the properties
    the specification lists.

    JavaScript strings are sequences of UTF-16 code units, so [length] and
    [slice] count code units.  Values are the ones [JSON.parse] can build,
    plus [undefined] for a missing property. *)

From Stdlib Require Import ZArith NArith Lia DecimalString.
From stdpp Require Import base option list strings gmap.

Set Warnings "-register-all".


(** ** Strings *)

Module JsString.

Abbreviation code_unit := N (only parsing).
Abbreviation jsstr := (list N) (only parsing).

(** A literal of the script, code unit by code unit. *)
Definition lit (s : string) : jsstr :=
  Ascii.N_of_ascii <$> String.list_ascii_of_string s.

(** [WhiteSpace] and [LineTerminator] of ECMAScript, what [trim] strips. *)
Definition is_space (c : code_unit) : bool :=
  ((9 <=? c) && (c <=? 13) || (c =? 32) || (c =? 160) || (c =? 5760)
   || (8192 <=? c) && (c <=? 8202) || (c =? 8232) || (c =? 8233)
   || (c =? 8239) || (c =? 8287) || (c =? 12288) || (c =? 65279))%N.

Fixpoint trim_start (s : jsstr) : jsstr :=
  match s with
  | c :: s' => if is_space c then trim_start s' else s
  | [] => []
  end.

Definition trim (s : jsstr) : jsstr :=
  reverse (trim_start (reverse (trim_start s))).

(** [s.slice(0, n)] *)
Definition slice0 (n : nat) (s : jsstr) : jsstr := take n s.

(** Decimal digits of a non-negative integer. *)
Definition dec (n : N) : jsstr := lit (NilZero.string_of_uint (N.to_uint n)).

(** [sub] occurs in [s]. *)
Definition contains (sub s : jsstr) : Prop :=
  exists pre post, s = pre ++ sub ++ post.

Fixpoint join_comma (l : list jsstr) : jsstr :=
  match l with
  | [] => []
  | [s] => s
  | s :: l' => s ++ lit "," ++ join_comma l'
  end.

End JsString.
Export JsString.

#[global] Arguments lit : simpl never.
#[global] Arguments dec : simpl never.
#[global] Arguments trim : simpl never.

(** ** Numbers

    A Number is NaN, an infinity, or a finite double, kept here by its exact
    value [(-1)^neg * mant * 2^expo] (both zeros included).  Nothing below
    adds or multiplies doubles, so no rounding is involved: [toFixed] works
    on the exact value. *)

Inductive number : Type :=
  | NaN
  | Infinity (neg : bool)
  | Finite (neg : bool) (mant : N) (expo : Z).

Definition is_zero (x : number) : bool :=
  match x with Finite _ 0%N _ => true | _ => false end.

(** ** Values *)

Inductive value : Type :=
  | VUndefined
  | VNull
  | VBool (b : bool)
  | VNum (x : number)
  | VStr (s : jsstr)
  | VArr (items : list value)
  | VObj (props : list (jsstr * value)).

(** What the browser throws or the script raises.  The script only reads
    [err.message]; for an error the platform makes, the text is the
    platform's. *)
Inductive fault : Type :=
  | NullAccess        (* TypeError: property read on null / undefined *)
  | NotAFunction      (* TypeError: x.slice is not a function *)
  | NotPrimitive      (* TypeError: cannot convert object to primitive value *)
  | Aborted           (* DOMException AbortError of an aborted fetch *)
  | BadJson           (* SyntaxError of res.json() *)
  | NetworkDown       (* TypeError of a fetch that got no response *)
  | BadUri            (* URIError of encodeURIComponent *)
  | StorageDenied.    (* DOMException of a blocked localStorage *)

Inductive js_error : Type :=
  | NewError (message : jsstr)   (* new Error(message) *)
  | Platform_error (f : fault).

Inductive result (A : Type) : Type :=
  | Ok (a : A)
  | Err (e : js_error).
Arguments Ok {A} a.
Arguments Err {A} e.

#[export] Instance result_ret : MRet result := fun _ a => Ok a.
#[export] Instance result_bind : MBind result :=
  fun _ _ f m => match m with Ok a => f a | Err e => Err e end.

(** The parts of the platform the script calls and this model leaves open. *)
Class Platform : Type := {
  (** [Number::toString]: shortest digits that read back as the double. *)
  number_to_string : number -> jsstr;
  (** [encodeURIComponent]; a lone surrogate raises URIError. *)
  encodeURIComponent : jsstr -> option jsstr;
  (** The [message] of an error the platform creates. *)
  fault_message : fault -> jsstr;
}.

Section Values.
Context `{Platform}.

Definition truthy (v : value) : bool :=
  match v with
  | VUndefined | VNull => false
  | VBool b => b
  | VNum NaN => false
  | VNum x => negb (is_zero x)
  | VStr s => negb (bool_decide (s = []))
  | VArr _ | VObj _ => true
  end.

(** [a || b] *)
Definition or_else (a b : value) : value := if truthy a then a else b.

Fixpoint obj_get (k : jsstr) (props : list (jsstr * value)) : value :=
  match props with
  | [] => VUndefined
  | (k', v) :: rest => if bool_decide (k' = k) then v else obj_get k rest
  end.

(** [v.k] for the data keys the script reads ([results], [title], ...):
    none of them is a built-in property of a string, number, boolean or
    array. *)
Definition get (v : value) (k : string) : result value :=
  match v with
  | VUndefined | VNull => Err (Platform_error NullAccess)
  | VObj props => Ok (obj_get (lit k) props)
  | _ => Ok VUndefined
  end.

(** The object has an own property [k]. *)
Definition has_own (k : string) (props : list (jsstr * value)) : bool :=
  bool_decide (lit k ∈ props.*1).

(** [ToString], what a template literal and [String] apply to a value.  An
    object goes through [toString] and [valueOf]: a parsed object inherits
    both from [Object.prototype] and prints as [[object Object]], unless it
    has an own [toString], which (coming from JSON) is not callable; then
    the inherited [valueOf] returns the object itself and the conversion
    throws a TypeError.  An array is joined as [Array.prototype.join] does:
    [undefined] and [null] elements give the empty text, the others are
    converted in turn. *)
Fixpoint to_string (v : value) : result jsstr :=
  match v with
  | VUndefined => Ok (lit "undefined")
  | VNull => Ok (lit "null")
  | VBool true => Ok (lit "true")
  | VBool false => Ok (lit "false")
  | VNum x => Ok (number_to_string x)
  | VStr s => Ok s
  | VArr items =>
      texts ← mapM (fun x => match x with
                             | VUndefined | VNull => Ok []
                             | _ => to_string x
                             end) items;
      Ok (join_comma texts)
  | VObj props =>
      if has_own "toString" props then Err (Platform_error NotPrimitive)
      else Ok (lit "[object Object]")
  end.

Definition err_message (e : js_error) : jsstr :=
  match e with
  | NewError m => m
  | Platform_error f => fault_message f
  end.

End Values.

(** ** The card renderer (app.js, [makeCard]) *)

(** [x.toFixed(1)].  For a finite [|x| < 10^21] it prints the integer [n]
    nearest to [10 * x] (the larger one on a tie) with a point before its
    last digit; otherwise it is [Number::toString]. *)
Definition at_least_1e21 (mant : N) (expo : Z) : bool :=
  match expo with
  | Zneg k => (10 ^ 21 * 2 ^ Npos k <=? mant)%N
  | _ => (10 ^ 21 <=? mant * 2 ^ Z.to_N expo)%N
  end.

Definition tenths (mant : N) (expo : Z) : N :=
  match expo with
  | Zneg k => ((20 * mant + 2 ^ Npos k) / 2 ^ (Npos k + 1))%N
  | _ => (10 * mant * 2 ^ Z.to_N expo)%N
  end.

Definition toFixed1 `{Platform} (x : number) : jsstr :=
  match x with
  | NaN => lit "NaN"
  | Infinity neg => if neg then lit "-Infinity" else lit "Infinity"
  | Finite neg mant expo =>
      if at_least_1e21 mant expo then number_to_string x
      else
        let n := tenths mant expo in
        (if neg && negb (mant =? 0)%N then lit "-" else [])
          ++ dec (n / 10) ++ lit "." ++ dec (n mod 10)
  end.

(** The element id: [movieCard-] followed by the record's id, or by the
    title and a random suffix of [Math.random], which stays symbolic. *)
Inductive card_id : Type :=
  | IdOfRecord (id : jsstr)
  | IdRandom (title : jsstr).

(** The [<article>] that [makeCard] returns: its id, class and tab index,
    and the markup assigned to its [innerHTML].  What elements and text the
    browser's parser makes of that markup is not part of the script.  (The
    [pointermove] listener only sets two style properties of the card and is
    left out.) *)
Record card : Type := Card {
  cardId : card_id;
  cardClass : jsstr;
  cardTabIndex : Z;
  cardHtml : jsstr;
}.

(** [state.imageBaseUrl], never assigned after its declaration. *)
Definition imageBaseUrl : jsstr := lit "https://image.tmdb.org/t/p/w500".

(** A piece of markup of the script, written with ['] where the script has
    the double quote (the card template has no ['] of its own). *)
Definition markup (s : string) : jsstr :=
  (fun c => if (c =? 39)%N then 34%N else c) <$> lit s.

(** A line of the template literal: the line break, its indentation and
    its text. *)
Definition line (indent : nat) (text : jsstr) : jsstr :=
  [10%N] ++ replicate indent 32%N ++ text.

(** The texts that fill the holes of the card template: [posterPath],
    [title], [rating] and the sliced date. *)
Record holes : Type := Holes {
  h_poster : jsstr;
  h_title : jsstr;
  h_rating : jsstr;
  h_badge : jsstr;
}.

(** The template literal of [card.innerHTML]: the holes are put in as they
    are, nothing is escaped. *)
Definition template (h : holes) : jsstr :=
  line 6 (markup "<div class='poster-wrap'>")
  ++ line 8 (if bool_decide (h_poster h = [])
             then markup "<div class='poster' role='img' aria-label='No poster available'></div>"
             else markup "<img class='poster' src='" ++ h_poster h
                    ++ markup "' alt='" ++ h_title h ++ markup " poster'>")
  ++ line 6 (markup "</div>")
  ++ line 6 (markup "<div class='card-body'>")
  ++ line 8 (markup "<h3 class='title' title='" ++ h_title h ++ markup "'>"
               ++ h_title h ++ markup "</h3>")
  ++ line 8 (markup "<div class='meta'>")
  ++ line 10 (markup "<div class='rating' aria-label='Rating " ++ h_rating h
                ++ markup "'>")
  ++ line 12 (markup "<span class='star'>" ++ [9733%N] ++ markup "</span>")
  ++ line 12 (markup "<span>" ++ h_rating h ++ markup "</span>")
  ++ line 10 (markup "</div>")
  ++ line 10 (markup "<span class='badge'>" ++ h_badge h ++ markup "</span>")
  ++ line 8 (markup "</div>")
  ++ line 6 (markup "</div>")
  ++ line 4 [].

Section Renderer.
Context `{Platform}.

(** [v.slice(0, 4)] *)
Definition slice04 (v : value) : result value :=
  match v with
  | VStr s => Ok (VStr (slice0 4 s))
  | VArr items => Ok (VArr (take 4 items))
  | VUndefined | VNull => Err (Platform_error NullAccess)
  | _ => Err (Platform_error NotAFunction)
  end.

(** [title] stays a value until a template converts it; the conversion is
    a function of the value, so the holes of the card template that hold
    [title] are filled by one conversion, made where the first of them is:
    before the date is sliced. *)
Definition makeCard (movie : value) : result card :=
  poster_path ← get movie "poster_path";
  posterPath ←
    (if truthy poster_path
     then path ← to_string poster_path; Ok (imageBaseUrl ++ path)
     else Ok []);
  title0 ← get movie "title";
  name0 ← get movie "name";
  let title := or_else (or_else title0 name0) (VStr (lit "Untitled")) in
  vote_average ← get movie "vote_average";
  let rating :=
    match vote_average with
    | VNum x => toFixed1 x
    | _ => lit "N/A"
    end in
  id ← get movie "id";
  uniqueIdBase ←
    (if truthy id then text ← to_string id; Ok (IdOfRecord text)
     else text ← to_string title; Ok (IdRandom text));
  title_text ← to_string title;
  release_date ← get movie "release_date";
  first_air_date ← get movie "first_air_date";
  year ← slice04 (or_else (or_else release_date first_air_date) (VStr []));
  badge ← to_string year;
  Ok {| cardId := uniqueIdBase;
        cardClass := lit "card glow";
        cardTabIndex := 0;
        cardHtml := template {| h_poster := posterPath; h_title := title_text;
                                h_rating := rating; h_badge := badge |} |}.

End Renderer.

(** A platform to run examples on: numbers print as the digit-free text
    [#], every string encodes to itself, and the error texts are Chrome's. *)
Definition demo_platform : Platform := {|
  number_to_string := fun _ => lit "#";
  encodeURIComponent := fun s => Some s;
  fault_message := fun f =>
    match f with
    | NullAccess => lit "Cannot read properties of null"
    | NotAFunction => lit "slice is not a function"
    | NotPrimitive => lit "Cannot convert object to primitive value"
    | Aborted => lit "signal is aborted without reason"
    | BadJson => lit "Unexpected end of JSON input"
    | NetworkDown => lit "Failed to fetch"
    | BadUri => lit "URI malformed"
    | StorageDenied => lit "The operation is insecure."
    end;
|}.

(** The double nearest to 8.456. *)
Definition d8_456 : number := Finite false 4760304806130614 (-49).

Definition dune : value :=
  VObj [(lit "title", VStr (lit "Dune")); (lit "vote_average", VNum d8_456)].

(** ** The page and the browser around it *)

(** A child of [#moviesGrid]: a card, or the [<div>] that [notifyError]
    writes, by the text in its hole. *)
Inductive node : Type :=
  | CardNode (c : card)
  | ErrorBox (text : jsstr).

Inductive phase : Type :=
  | AwaitResponse    (* await fetch(url, { signal }) *)
  | AwaitBody.       (* the promise of res.json() *)

(** A pending fetch, named by the AbortController whose signal it got. *)
Record request : Type := Request { rid : nat; rphase : phase }.

#[export] Instance phase_eq_dec : EqDecision phase.
Proof. solve_decision. Defined.
#[export] Instance request_eq_dec : EqDecision request.
Proof. solve_decision. Defined.

(** A pending [setTimeout]: the closure keeps the [q] of its input event. *)
Record timer : Type := Timer { tid : nat; due : N; query : jsstr }.

(** Calls the script makes, recorded in order. *)
Inductive obs : Type :=
  | ConsoleError (e : js_error)
  | Alert (text : jsstr)
  | AbortCalled (c : nat)
  | FetchCalled (c : nat) (url : jsstr)
  | SearchCalled (q : jsstr)
  | TrendingCalled
  | TimerFired (q : jsstr).

Record browser : Type := Browser {
  apiKey : option jsstr;   (* state.apiKey *)
  abortController : option nat;   (* state.abortController, by the identity of the controller *)
  debounceTimer : option nat;   (* let debounceTimer of wireEvents *)
  apiKeyInput : jsstr;   (* el.apiKeyInput.value *)
  searchInput : jsstr;   (* el.searchInput.value *)
  settingsHidden : bool;   (* the hidden attribute of el.settingsModal *)
  moviesGrid : list node;   (* the children of el.moviesGrid *)
  moviesSection : option (option bool);   (* the .movies element, if the page has one, and its aria-busy *)
  storageBlocked : bool;   (* localStorage throws on access *)
  localStorage : gmap string jsstr;   (* the entries of localStorage *)
  inflight : list request;   (* fetches whose promise is still pending *)
  microtasks : list nat;   (* aborted fetches whose rejection has not run yet *)
  controllers : nat;   (* AbortControllers created so far *)
  clock : N;   (* milliseconds since the page loaded *)
  timers : list timer;   (* pending timeouts, oldest first *)
  timerIds : nat;   (* timeouts created so far *)
  trace : list obs;   (* what the script did, oldest first *)
}.

Definition set_apiKey (v : option jsstr) (s : browser) : browser :=
  Browser v (s.(abortController)) (s.(debounceTimer)) (s.(apiKeyInput)) (s.(searchInput)) (s.(settingsHidden)) (s.(moviesGrid)) (s.(moviesSection)) (s.(storageBlocked)) (s.(localStorage)) (s.(inflight)) (s.(microtasks)) (s.(controllers)) (s.(clock)) (s.(timers)) (s.(timerIds)) (s.(trace)).
Definition set_abortController (v : option nat) (s : browser) : browser :=
  Browser (s.(apiKey)) v (s.(debounceTimer)) (s.(apiKeyInput)) (s.(searchInput)) (s.(settingsHidden)) (s.(moviesGrid)) (s.(moviesSection)) (s.(storageBlocked)) (s.(localStorage)) (s.(inflight)) (s.(microtasks)) (s.(controllers)) (s.(clock)) (s.(timers)) (s.(timerIds)) (s.(trace)).
Definition set_debounceTimer (v : option nat) (s : browser) : browser :=
  Browser (s.(apiKey)) (s.(abortController)) v (s.(apiKeyInput)) (s.(searchInput)) (s.(settingsHidden)) (s.(moviesGrid)) (s.(moviesSection)) (s.(storageBlocked)) (s.(localStorage)) (s.(inflight)) (s.(microtasks)) (s.(controllers)) (s.(clock)) (s.(timers)) (s.(timerIds)) (s.(trace)).
Definition set_apiKeyInput (v : jsstr) (s : browser) : browser :=
  Browser (s.(apiKey)) (s.(abortController)) (s.(debounceTimer)) v (s.(searchInput)) (s.(settingsHidden)) (s.(moviesGrid)) (s.(moviesSection)) (s.(storageBlocked)) (s.(localStorage)) (s.(inflight)) (s.(microtasks)) (s.(controllers)) (s.(clock)) (s.(timers)) (s.(timerIds)) (s.(trace)).
Definition set_searchInput (v : jsstr) (s : browser) : browser :=
  Browser (s.(apiKey)) (s.(abortController)) (s.(debounceTimer)) (s.(apiKeyInput)) v (s.(settingsHidden)) (s.(moviesGrid)) (s.(moviesSection)) (s.(storageBlocked)) (s.(localStorage)) (s.(inflight)) (s.(microtasks)) (s.(controllers)) (s.(clock)) (s.(timers)) (s.(timerIds)) (s.(trace)).
Definition set_settingsHidden (v : bool) (s : browser) : browser :=
  Browser (s.(apiKey)) (s.(abortController)) (s.(debounceTimer)) (s.(apiKeyInput)) (s.(searchInput)) v (s.(moviesGrid)) (s.(moviesSection)) (s.(storageBlocked)) (s.(localStorage)) (s.(inflight)) (s.(microtasks)) (s.(controllers)) (s.(clock)) (s.(timers)) (s.(timerIds)) (s.(trace)).
Definition set_moviesGrid (v : list node) (s : browser) : browser :=
  Browser (s.(apiKey)) (s.(abortController)) (s.(debounceTimer)) (s.(apiKeyInput)) (s.(searchInput)) (s.(settingsHidden)) v (s.(moviesSection)) (s.(storageBlocked)) (s.(localStorage)) (s.(inflight)) (s.(microtasks)) (s.(controllers)) (s.(clock)) (s.(timers)) (s.(timerIds)) (s.(trace)).
Definition set_moviesSection (v : option (option bool)) (s : browser) : browser :=
  Browser (s.(apiKey)) (s.(abortController)) (s.(debounceTimer)) (s.(apiKeyInput)) (s.(searchInput)) (s.(settingsHidden)) (s.(moviesGrid)) v (s.(storageBlocked)) (s.(localStorage)) (s.(inflight)) (s.(microtasks)) (s.(controllers)) (s.(clock)) (s.(timers)) (s.(timerIds)) (s.(trace)).
Definition set_storageBlocked (v : bool) (s : browser) : browser :=
  Browser (s.(apiKey)) (s.(abortController)) (s.(debounceTimer)) (s.(apiKeyInput)) (s.(searchInput)) (s.(settingsHidden)) (s.(moviesGrid)) (s.(moviesSection)) v (s.(localStorage)) (s.(inflight)) (s.(microtasks)) (s.(controllers)) (s.(clock)) (s.(timers)) (s.(timerIds)) (s.(trace)).
Definition set_localStorage (v : gmap string jsstr) (s : browser) : browser :=
  Browser (s.(apiKey)) (s.(abortController)) (s.(debounceTimer)) (s.(apiKeyInput)) (s.(searchInput)) (s.(settingsHidden)) (s.(moviesGrid)) (s.(moviesSection)) (s.(storageBlocked)) v (s.(inflight)) (s.(microtasks)) (s.(controllers)) (s.(clock)) (s.(timers)) (s.(timerIds)) (s.(trace)).
Definition set_inflight (v : list request) (s : browser) : browser :=
  Browser (s.(apiKey)) (s.(abortController)) (s.(debounceTimer)) (s.(apiKeyInput)) (s.(searchInput)) (s.(settingsHidden)) (s.(moviesGrid)) (s.(moviesSection)) (s.(storageBlocked)) (s.(localStorage)) v (s.(microtasks)) (s.(controllers)) (s.(clock)) (s.(timers)) (s.(timerIds)) (s.(trace)).
Definition set_microtasks (v : list nat) (s : browser) : browser :=
  Browser (s.(apiKey)) (s.(abortController)) (s.(debounceTimer)) (s.(apiKeyInput)) (s.(searchInput)) (s.(settingsHidden)) (s.(moviesGrid)) (s.(moviesSection)) (s.(storageBlocked)) (s.(localStorage)) (s.(inflight)) v (s.(controllers)) (s.(clock)) (s.(timers)) (s.(timerIds)) (s.(trace)).
Definition set_controllers (v : nat) (s : browser) : browser :=
  Browser (s.(apiKey)) (s.(abortController)) (s.(debounceTimer)) (s.(apiKeyInput)) (s.(searchInput)) (s.(settingsHidden)) (s.(moviesGrid)) (s.(moviesSection)) (s.(storageBlocked)) (s.(localStorage)) (s.(inflight)) (s.(microtasks)) v (s.(clock)) (s.(timers)) (s.(timerIds)) (s.(trace)).
Definition set_clock (v : N) (s : browser) : browser :=
  Browser (s.(apiKey)) (s.(abortController)) (s.(debounceTimer)) (s.(apiKeyInput)) (s.(searchInput)) (s.(settingsHidden)) (s.(moviesGrid)) (s.(moviesSection)) (s.(storageBlocked)) (s.(localStorage)) (s.(inflight)) (s.(microtasks)) (s.(controllers)) v (s.(timers)) (s.(timerIds)) (s.(trace)).
Definition set_timers (v : list timer) (s : browser) : browser :=
  Browser (s.(apiKey)) (s.(abortController)) (s.(debounceTimer)) (s.(apiKeyInput)) (s.(searchInput)) (s.(settingsHidden)) (s.(moviesGrid)) (s.(moviesSection)) (s.(storageBlocked)) (s.(localStorage)) (s.(inflight)) (s.(microtasks)) (s.(controllers)) (s.(clock)) v (s.(timerIds)) (s.(trace)).
Definition set_timerIds (v : nat) (s : browser) : browser :=
  Browser (s.(apiKey)) (s.(abortController)) (s.(debounceTimer)) (s.(apiKeyInput)) (s.(searchInput)) (s.(settingsHidden)) (s.(moviesGrid)) (s.(moviesSection)) (s.(storageBlocked)) (s.(localStorage)) (s.(inflight)) (s.(microtasks)) (s.(controllers)) (s.(clock)) (s.(timers)) v (s.(trace)).
Definition set_trace (v : list obs) (s : browser) : browser :=
  Browser (s.(apiKey)) (s.(abortController)) (s.(debounceTimer)) (s.(apiKeyInput)) (s.(searchInput)) (s.(settingsHidden)) (s.(moviesGrid)) (s.(moviesSection)) (s.(storageBlocked)) (s.(localStorage)) (s.(inflight)) (s.(microtasks)) (s.(controllers)) (s.(clock)) (s.(timers)) (s.(timerIds)) v.

(** ** Running the script

    A piece of script runs on the browser state and ends by returning, by
    throwing, or suspended at an [await]; the platform resumes a suspended
    [async] function later, from the event that settles its promise. *)

Inductive outcome (A : Type) : Type :=
  | Done (a : A)
  | Thrown (e : js_error)
  | Awaiting.
Arguments Done {A} a.
Arguments Thrown {A} e.
Arguments Awaiting {A}.

Definition M (A : Type) : Type := browser -> outcome A * browser.

#[export] Instance M_ret : MRet M := fun _ a s => (Done a, s).
#[export] Instance M_bind : MBind M :=
  fun _ _ f m s =>
    match m s with
    | (Done a, s') => f a s'
    | (Thrown e, s') => (Thrown e, s')
    | (Awaiting, s') => (Awaiting, s')
    end.

Definition read : M browser := fun s => (Done s, s).
Definition modify (f : browser -> browser) : M unit := fun s => (Done tt, f s).
Definition throw {A} (e : js_error) : M A := fun s => (Thrown e, s).
Definition await {A} : M A := fun s => (Awaiting, s).
Definition log (o : obs) : M unit := modify (fun s => set_trace (trace s ++ [o]) s).
Definition of_result {A} (r : result A) : M A :=
  match r with Ok a => mret a | Err e => throw e end.

(** [try { body } catch (err) { handler }] *)
Definition try_catch (body : M unit) (handler : js_error -> M unit) : M unit :=
  fun s =>
    match body s with
    | (Thrown e, s') => handler e s'
    | r => r
    end.

(** [try { body } finally { cleanup }]: a suspended body has not left the
    block, so the cleanup waits for the resumption. *)
Definition finally (body cleanup : M unit) : M unit :=
  fun s =>
    match body s with
    | (Awaiting, s') => (Awaiting, s')
    | (r, s') =>
        match cleanup s' with
        | (Done _, s'') => (r, s'')
        | r' => r'
        end
    end.

(** The state a piece of script leaves. *)
Definition exec {A} (m : M A) (s : browser) : browser := snd (m s).

(** Calling an [async] function without [await]: it runs up to its first
    suspension, and the caller goes on with the promise it got. *)
Definition call_async (f : M unit) : M unit := fun s => (Done tt, exec f s).

Definition nonempty (k : option jsstr) : bool :=
  match k with Some (_ :: _) => true | _ => false end.

Section Script.
Context `{Platform}.

(** *** Credential store (app.js, [loadApiKey], [saveApiKey]) *)

Definition getItem (k : string) : M (option jsstr) :=
  s ← read;
  if storageBlocked s then throw (Platform_error StorageDenied)
  else mret (localStorage s !! k).

Definition setItem (k : string) (v : jsstr) : M unit :=
  s ← read;
  if storageBlocked s then throw (Platform_error StorageDenied)
  else modify (set_localStorage (<[k := v]> (localStorage s))).

Definition loadApiKey : M unit :=
  try_catch
    (key ← getItem "tmdb_api_key";
     modify (set_apiKey
               (match key with
                | Some k => if bool_decide (5 < length k) then Some k else None
                | None => None
                end));;
     s ← read;
     if nonempty (apiKey s)
     then modify (set_apiKeyInput (default [] (apiKey s)))
     else mret tt)
    (fun _ => mret tt).

Definition saveApiKey (key : jsstr) : M unit :=
  try_catch
    (setItem "tmdb_api_key" key;;
     modify (set_apiKey (Some key)))
    (fun _ => mret tt).

(** *** Small DOM helpers (app.js, [showSettings], [setBusy]) *)

Definition showSettings (open : bool) : M unit :=
  modify (set_settingsHidden (negb open)).

Definition setBusy (isBusy : bool) : M unit :=
  s ← read;
  match moviesSection s with
  | None => mret tt
  | Some _ => modify (set_moviesSection (Some (Some isBusy)))
  end.

(** *** Data source client (app.js, [fetchJson], [buildSearchUrl],
    [buildTrendingUrl]) *)

(** [controller.abort()]: a fetch still pending on that signal is
    cancelled and its promise rejected; the rejection reaches the awaiting
    function once the running script has returned. *)
Definition abort (c : nat) : M unit :=
  log (AbortCalled c);;
  s ← read;
  if bool_decide (c ∈ rid <$> inflight s)
  then modify (fun s =>
         set_microtasks (microtasks s ++ [c])
           (set_inflight (filter (fun r => rid r ≠ c) (inflight s)) s))
  else mret tt.

Definition new_AbortController : M nat :=
  s ← read;
  modify (set_controllers (S (controllers s)));;
  mret (controllers s).

Definition fetch (url : jsstr) (signal : nat) : M unit :=
  log (FetchCalled signal url);;
  modify (fun s => set_inflight (inflight s ++ [Request signal AwaitResponse]) s).

(** [res.ok] *)
Definition res_ok (status : N) : bool := ((200 <=? status) && (status <=? 299))%N.

(** [res.json()]: the body is read on the same request. *)
Definition res_json (c : nat) : M unit :=
  modify (fun s => set_inflight (inflight s ++ [Request c AwaitBody]) s).

(** [fetchJson] up to its [await fetch(...)]. *)
Definition fetchJson (url : jsstr) : M unit :=
  s ← read;
  if negb (nonempty (apiKey s))
  then throw (NewError (lit "Missing TMDb API key. Click the gear icon to set it."))
  else
    match abortController s with
    | Some c => abort c
    | None => mret tt
    end;;
    c ← new_AbortController;
    modify (set_abortController (Some c));;
    fetch url c;;
    await.

(** [fetchJson] from the response on. *)
Definition fetchJson_response (c : nat) (status : N) : M unit :=
  if negb (res_ok status)
  then throw (NewError (lit "Request failed (" ++ dec status ++ lit ")"))
  else res_json c;; await.

(** [`${state.apiKey}`] *)
Definition key_text (k : option jsstr) : jsstr :=
  match k with Some k => k | None => lit "null" end.

Definition buildSearchUrl (query : jsstr) : M jsstr :=
  match encodeURIComponent (trim query) with
  | None => throw (Platform_error BadUri)
  | Some q =>
      s ← read;
      mret (lit "https://api.themoviedb.org/3/search/movie?api_key="
              ++ key_text (apiKey s) ++ lit "&query=" ++ q
              ++ lit "&include_adult=false&language=en-US&page=" ++ dec 1)
  end.

Definition buildTrendingUrl : M jsstr :=
  s ← read;
  mret (lit "https://api.themoviedb.org/3/trending/movie/week?api_key="
          ++ key_text (apiKey s)).

(** *** Rendering into the grid (app.js, [renderMovies], [notifyError]) *)

Definition renderMovies (results : list value) : M unit :=
  modify (set_moviesGrid []);;
  frag ← of_result (mapM makeCard results);
  modify (fun s => set_moviesGrid (moviesGrid s ++ (CardNode <$> frag)) s).

Definition notifyError (err : js_error) : M unit :=
  log (ConsoleError err);;
  modify (set_moviesGrid
            [ErrorBox (if bool_decide (err_message err = [])
                       then lit "Something went wrong"
                       else err_message err)]).

(** *** [searchMovies] and [loadTrending]

    Both are [try { setBusy(true); data = await fetchJson(url);
    await renderMovies(...) } catch (err) { notifyError(err) }
    finally { setBusy(false) }]; every piece between two suspensions runs
    inside that same block. *)
Definition guarded (body : M unit) : M unit :=
  finally (try_catch body notifyError) (setBusy false).

Definition searchMovies (query : jsstr) : M unit :=
  log (SearchCalled query);;
  guarded (setBusy true;; url ← buildSearchUrl query; fetchJson url).

Definition loadTrending : M unit :=
  log TrendingCalled;;
  guarded (setBusy true;; url ← buildTrendingUrl; fetchJson url).

(** The rest of either function once [fetchJson] has returned [data]. *)
Definition render_data (data : value) : M unit :=
  results ← of_result (get data "results");
  renderMovies (match results with VArr items => items | _ => [] end).

End Script.

(** ** Events (app.js, [wireEvents], [init]) *)

Inductive event : Type :=
  | Click_settingsButton
  | Click_closeSettingsButton
  | Click_settingsModal (on_backdrop : bool)
  | Edit_apiKeyInput (text : jsstr)       (* the user edits the field *)
  | Click_saveApiKeyButton
  | Submit_searchForm
  | Input_searchInput (text : jsstr)      (* an edit and its input event *)
  | Elapse (ms : N)                       (* time passes *)
  | Response (c : nat) (status : N)       (* the headers of fetch c arrive *)
  | Body (c : nat) (body : option value)  (* its body: parsed, or not JSON *)
  | NetworkError (c : nat).               (* the connection fails *)

Section Wiring.
Context `{Platform}.

Definition clearTimeout (id : option nat) : M unit :=
  match id with
  | Some i => modify (fun s => set_timers (filter (fun t => tid t ≠ i) (timers s)) s)
  | None => mret tt
  end.

Definition setTimeout (q : jsstr) (delay : N) : M nat :=
  s ← read;
  modify (fun s => set_timerIds (S (timerIds s))
                     (set_timers (timers s ++ [Timer (timerIds s) (clock s + delay) q]) s));;
  mret (timerIds s).

(** The arrow function given to [setTimeout]. *)
Definition debounced (q : jsstr) : M unit :=
  log (TimerFired q);;
  (if bool_decide (3 ≤ length q) then call_async (searchMovies q) else mret tt);;
  (if bool_decide (length q = 0) then call_async loadTrending else mret tt).

Definition on_save : M unit :=
  s ← read;
  let key := trim (apiKeyInput s) in
  if bool_decide (length key < 10)
  then log (Alert (lit "Please paste a valid TMDb API key."))
  else saveApiKey key;; showSettings false;; call_async loadTrending.

Definition on_submit : M unit :=
  s ← read;
  let q := trim (searchInput s) in
  if bool_decide (length q = 0) then mret tt else call_async (searchMovies q).

Definition on_input : M unit :=
  s ← read;
  let q := trim (searchInput s) in
  clearTimeout (debounceTimer s);;
  t ← setTimeout q 300;
  modify (set_debounceTimer (Some t)).

(** After a piece of script returns, the rejections of the fetches it
    aborted run: each resumes its function by throwing at the [await]. *)
Definition drain (s : browser) : browser :=
  foldl (fun s _ => exec (guarded (throw (Platform_error Aborted))) s)
        (set_microtasks [] s) (microtasks s).

Definition task (m : M unit) (s : browser) : browser := drain (exec m s).

Definition remove_request (c : nat) (s : browser) : browser :=
  set_inflight (filter (fun r => rid r ≠ c) (inflight s)) s.

(** A timeout whose time has come, unless it was cleared meanwhile. *)
Definition fire (t : timer) (s : browser) : browser :=
  if bool_decide (tid t ∈ tid <$> timers s)
  then task (debounced (query t))
            (set_timers (filter (fun t' => tid t' ≠ tid t) (timers s)) s)
  else s.

(** Every timeout of the script has the same delay, so the due ones come
    up in the order they were set. *)
Definition elapse (ms : N) (s : browser) : browser :=
  let s' := set_clock (clock s + ms) s in
  foldl (fun s t => fire t s) s'
        (filter (fun t => (due t <= clock s')%N) (timers s')).

Definition step (ev : event) (s : browser) : browser :=
  match ev with
  | Click_settingsButton => task (showSettings true) s
  | Click_closeSettingsButton => task (showSettings false) s
  | Click_settingsModal on_backdrop =>
      task (if on_backdrop then showSettings false else mret tt) s
  | Edit_apiKeyInput text => set_apiKeyInput text s
  | Click_saveApiKeyButton => task on_save s
  | Submit_searchForm => task on_submit s
  | Input_searchInput text => task on_input (set_searchInput text s)
  | Elapse ms => elapse ms s
  | Response c status =>
      if bool_decide (Request c AwaitResponse ∈ inflight s)
      then task (guarded (fetchJson_response c status)) (remove_request c s)
      else s
  | Body c body =>
      if bool_decide (Request c AwaitBody ∈ inflight s)
      then task (guarded (match body with
                          | Some data => render_data data
                          | None => throw (Platform_error BadJson)
                          end))
                (remove_request c s)
      else s
  | NetworkError c =>
      if bool_decide (c ∈ rid <$> inflight s)
      then task (guarded (throw (Platform_error NetworkDown))) (remove_request c s)
      else s
  end.

Definition run (evs : list event) (s : browser) : browser :=
  foldl (fun s ev => step ev s) s evs.

Definition init : M unit :=
  loadApiKey;;
  s ← read;
  if nonempty (apiKey s) then call_async loadTrending else showSettings true.

(** The page as the script finds it: what the store holds and whether it
    can be read, what the credential field and the modal start as, and
    whether there is a [.movies] section.  The elements [initElements] looks
    up by id are taken to be there. *)
Definition page (blocked : bool) (store : gmap string jsstr)
    (field : jsstr) (hidden : bool) (section : option (option bool)) : browser :=
  {| apiKey := None; abortController := None; debounceTimer := None;
     apiKeyInput := field; searchInput := []; settingsHidden := hidden;
     moviesGrid := []; moviesSection := section;
     storageBlocked := blocked; localStorage := store;
     inflight := []; microtasks := []; controllers := 0;
     clock := 0; timers := []; timerIds := 0; trace := [] |}.

Definition boot blocked store field hidden section : browser :=
  task init (page blocked store field hidden section).

End Wiring.

Definition demo_store : gmap string jsstr :=
  {[ "tmdb_api_key" := lit "0123456789abcdef" ]}.

Definition demo_boot : browser :=
  @boot demo_platform false demo_store [] true (Some None).

(** ** What the properties speak about *)

(** The text [notifyError] puts in the grid for an error. *)
Definition shown `{Platform} (e : js_error) : jsstr :=
  if bool_decide (err_message e = []) then lit "Something went wrong"
  else err_message e.

(** A property of a record that is an object, or [undefined]. *)
Definition field `{Platform} (movie : value) (k : string) : value :=
  match get movie k with Ok v => v | Err _ => VUndefined end.

(** The two fetch-and-render entry points. *)
Inductive call : Type :=
  | Search (q : jsstr)
  | Trending.

Definition issue `{Platform} (b : call) : M unit :=
  match b with
  | Search q => searchMovies q
  | Trending => loadTrending
  end.

(** The entry-point calls of a trace, and the timeouts that fired. *)
Definition calls (tr : list obs) : list call :=
  omap (fun o => match o with
                 | SearchCalled q => Some (Search q)
                 | TrendingCalled => Some Trending
                 | _ => None
                 end) tr.

Definition fired (tr : list obs) : list jsstr :=
  omap (fun o => match o with TimerFired q => Some q | _ => None end) tr.

(** What the debounced callback calls for a query. *)
Definition debounced_calls (q : jsstr) : list call :=
  if bool_decide (3 ≤ length q) then [Search q]
  else if bool_decide (length q = 0) then [Trending]
  else [].

(** Keystrokes in the search box, each followed by a pause. *)
Definition typing (keys : list (jsstr * N)) : list event :=
  keys ≫= (fun k => [Input_searchInput k.1; Elapse k.2]).

(** The states the page can be in between two events. *)
Inductive reachable `{Platform} : browser -> Prop :=
  | reach_boot blocked store field hidden section :
      reachable (boot blocked store field hidden section)
  | reach_step ev s :
      reachable s -> reachable (step ev s).

(** The request discipline: no rejection is waiting, the only fetch that
    can be pending is the one of the stored controller, controllers are
    numbered in creation order, and a fetch is only pending with a
    credential set. *)
Record net_inv (s : browser) : Prop := NetInv {
  inv_microtasks : microtasks s = [];
  inv_inflight :
    inflight s = [] \/
    exists c ph, inflight s = [Request c ph] /\ abortController s = Some c;
  inv_fresh : forall c, abortController s = Some c -> c < controllers s;
  inv_key : inflight s <> [] -> nonempty (apiKey s) = true;
}.

(** ** Vocabulary of the proofs *)

Section Vocabulary.
Context `{Platform}.


Definition dune_holes : holes :=
  {| h_poster := []; h_title := lit "Dune"; h_rating := lit "8.5"; h_badge := [] |}.

Definition dune_card : card :=
  {| cardId := IdRandom (lit "Dune");
     cardClass := lit "card glow";
     cardTabIndex := 0;
     cardHtml := template dune_holes |}.

(** [ToString] returns on the value. *)
Definition printable (v : value) : Prop := exists text, to_string v = Ok text.


(** The value of [title || name || 'Untitled'] and of
    [release_date || first_air_date || ''] for a record. *)
Definition title_of (movie : value) : value :=
  or_else (or_else (field movie "title") (field movie "name"))
          (VStr (lit "Untitled")).

Definition date_of (movie : value) : value :=
  or_else (or_else (field movie "release_date") (field movie "first_air_date"))
          (VStr []).

(** A record without a poster whose title is an image tag, and one whose
    rating is too large for a double (the JSON text [1e999]). *)
Definition tagged : value := VObj [(lit "title", VStr (lit "<img src=x>"))].



Definition short_store : gmap string jsstr := {[ "tmdb_api_key" := lit "abcde" ]}.

(** The fields no fetch-and-render piece assigns. *)
Record untouched (s s' : browser) : Prop := Untouched {
  same_apiKey : apiKey s' = apiKey s;
  same_debounceTimer : debounceTimer s' = debounceTimer s;
  same_apiKeyInput : apiKeyInput s' = apiKeyInput s;
  same_searchInput : searchInput s' = searchInput s;
  same_settingsHidden : settingsHidden s' = settingsHidden s;
  same_storageBlocked : storageBlocked s' = storageBlocked s;
  same_localStorage : localStorage s' = localStorage s;
  same_clock : clock s' = clock s;
  same_timers : timers s' = timers s;
  same_timerIds : timerIds s' = timerIds s;
}.

(** A trace grew, without an entry-point call or a fired timeout. *)
Definition quiet (s s' : browser) : Prop :=
  exists more, trace s' = trace s ++ more /\ calls more = [] /\ fired more = [].

(** The state [fetchJson] suspends in: the stored controller aborted, a
    new one stored, the request sent on its signal. *)
Definition dispatched (url : jsstr) (s : browser) : browser :=
  let c := controllers s in
  set_inflight (filter (fun r => Some (rid r) ≠ abortController s) (inflight s)
                  ++ [Request c AwaitResponse])
    (set_microtasks
       (microtasks s
          ++ match abortController s with
             | Some a => if bool_decide (a ∈ rid <$> inflight s) then [a] else []
             | None => []
             end)
       (set_trace
          (trace s
             ++ match abortController s with
                | Some a => [AbortCalled a]
                | None => []
                end
             ++ [FetchCalled c url])
          (set_controllers (S c) (set_abortController (Some c) s)))).

Definition build (b : call) : M jsstr :=
  match b with
  | Search q => buildSearchUrl q
  | Trending => buildTrendingUrl
  end.

Definition call_obs (b : call) : obs :=
  match b with
  | Search q => SearchCalled q
  | Trending => TrendingCalled
  end.

(** The request bookkeeping is as it was. *)
Record same_net (s s' : browser) : Prop := SameNet {
  same_inflight : inflight s' = inflight s;
  same_abortController : abortController s' = abortController s;
  same_controllers : controllers s' = controllers s;
  same_microtasks : microtasks s' = microtasks s;
  same_key : apiKey s' = apiKey s;
}.


(** The state an entry point starts fetching from. *)
Definition entered (b : call) (s : browser) : browser :=
  exec (setBusy true) (set_trace (trace s ++ [call_obs b]) s).

(** The URL of the call can be built: a search text that
    [encodeURIComponent] accepts. *)
Definition encodable (b : call) : Prop :=
  match b with
  | Search q => is_Some (encodeURIComponent (trim q))
  | Trending => True
  end.

(** While a keystroke's timeout is pending it is the only one, it is the
    stored one, and its time has not come. *)
Definition armed (s : browser) : Prop :=
  timers s = [] \/
  exists i d q, timers s = [Timer i d q] /\ debounceTimer s = Some i /\ (clock s < d)%N.

(** A body with one record, and the page after the trending list showed it
    and a search for Dune was submitted. *)
Definition dune_results : value := VObj [(lit "results", VArr [dune])].

Definition searching : list event :=
  [Response 0 200; Body 0 (Some dune_results);
   Input_searchInput (lit "dune"); Submit_searchForm].

(** The debounce discipline: at most one timeout is pending, it is the
    stored one, it carries the trimmed text of the search box, its time has
    not come and lies at most 300 ms ahead. *)
Definition timer_inv (s : browser) : Prop :=
  timers s = [] \/
  exists i d, timers s = [Timer i d (trim (searchInput s))]
              /\ debounceTimer s = Some i
              /\ (clock s < d)%N /\ (d <= clock s + 300)%N.

(** The credential and the store are as before. *)
Definition same_store (s s' : browser) : Prop :=
  apiKey s' = apiKey s /\ localStorage s' = localStorage s
  /\ storageBlocked s' = storageBlocked s.

(** The clock, the timeouts and the search box are as before. *)
Definition same_timing (s s' : browser) : Prop :=
  timers s' = timers s /\ debounceTimer s' = debounceTimer s
  /\ clock s' = clock s /\ searchInput s' = searchInput s.

(** A page that starts with an empty store. *)
Definition no_key_boot : browser :=
  @boot demo_platform false ∅ [] true (Some None).

End Vocabulary.

(** * Properties *)

(** ** The card renderer *)

Section RendererFacts.
Context `{Platform}.




(** [d8_456] is the double that the literal 8.456 denotes: it lies within
    half a unit in the last place (2^-50 here) of 8.456. *)
Lemma d8_456_nearest :
  (Z.abs (1000 * 4760304806130614 - 8456 * 2 ^ 49) < 500)%Z
  /\ (2 ^ 52 <= 4760304806130614 < 2 ^ 53)%Z.
Proof. split; [vm_compute; reflexivity | lia]. Qed.

Lemma toFixed1_d8_456 : toFixed1 d8_456 = lit "8.5".
Proof. reflexivity. Qed.

End RendererFacts.

Section MakeCard.
Context `{Platform}.





(** [makeCard] on a record whose properties can be read. *)
Lemma makeCard_run (movie : value) :
  movie <> VNull -> movie <> VUndefined ->
  let f := field movie in
  makeCard movie
  = (posterPath ←
       (if truthy (f "poster_path")
        then path ← to_string (f "poster_path"); Ok (imageBaseUrl ++ path)
        else Ok []);
     uniqueIdBase ←
       (if truthy (f "id") then text ← to_string (f "id"); Ok (IdOfRecord text)
        else text ← to_string (title_of movie); Ok (IdRandom text));
     title_text ← to_string (title_of movie);
     year ← slice04 (date_of movie);
     badge ← to_string year;
     Ok {| cardId := uniqueIdBase;
           cardClass := lit "card glow";
           cardTabIndex := 0;
           cardHtml :=
             template {| h_poster := posterPath; h_title := title_text;
                         h_rating :=
                           match f "vote_average" with
                           | VNum x => toFixed1 x
                           | _ => lit "N/A"
                           end;
                         h_badge := badge |} |}).
Proof. by destruct movie. Qed.

(** The card and the holes of its markup, read off the record. *)
Lemma makeCard_holes (movie : value) (c : card) :
  makeCard movie = Ok c ->
  let f := field movie in
  exists h : holes,
    c = {| cardId := cardId c; cardClass := lit "card glow"; cardTabIndex := 0;
           cardHtml := template h |}
    /\ (if truthy (f "poster_path")
        then exists path, to_string (f "poster_path") = Ok path
                          /\ h_poster h = imageBaseUrl ++ path
        else h_poster h = [])
    /\ to_string (title_of movie) = Ok (h_title h)
    /\ h_rating h
       = match f "vote_average" with VNum x => toFixed1 x | _ => lit "N/A" end
    /\ (exists year, slice04 (date_of movie) = Ok year
                     /\ to_string year = Ok (h_badge h))
    /\ (if truthy (f "id")
        then exists text, to_string (f "id") = Ok text
                          /\ cardId c = IdOfRecord text
        else cardId c = IdRandom (h_title h)).
Proof.
  intros Hc f.
  assert (Hnull : movie <> VNull) by (by intros ->).
  assert (Hundef : movie <> VUndefined) by (by intros ->).
  rewrite (makeCard_run movie Hnull Hundef) in Hc. cbv zeta in Hc. fold f in Hc.
  destruct (truthy (f "poster_path")) eqn:Hpp;
    [destruct (to_string (f "poster_path")) as [path|] eqn:Hpath;
       [|discriminate]|];
    simpl in Hc;
    (destruct (truthy (f "id")) eqn:Hid;
       [destruct (to_string (f "id")) as [text|] eqn:Htext; [|discriminate]|]);
    simpl in Hc;
    (destruct (to_string (title_of movie)) as [title|] eqn:Htitle;
       [|discriminate]);
    simpl in Hc;
    (destruct (slice04 (date_of movie)) as [year|] eqn:Hyear; [|discriminate]);
    simpl in Hc;
    (destruct (to_string year) as [badge|] eqn:Hbadge; [|discriminate]);
    simpl in Hc; injection Hc as <-;
    eexists (Holes _ _ _ _); simpl; split_and!; try done; by eauto.
Qed.



End MakeCard.




(** ** The credential store *)

(** Unfolds the script down to the state transformer it denotes. *)
Ltac script :=
  unfold exec, loadApiKey, saveApiKey, getItem, setItem, try_catch, finally,
    modify, read, throw, await, log, of_result;
  unfold mbind, mret, M_bind, M_ret; simpl.

Section Credential.

(** What [loadApiKey] leaves as the credential when the store answers. *)
Lemma loadApiKey_apiKey (s : browser) :
  storageBlocked s = false ->
  apiKey (exec loadApiKey s)
  = match localStorage s !! "tmdb_api_key" with
    | Some k => if bool_decide (5 < length k) then Some k else None
    | None => None
    end.
Proof.
  intros Hok. script. rewrite Hok. simpl.
  destruct (localStorage s !! "tmdb_api_key") as [k|]; simpl; [|done].
  case_bool_decide; simpl; [|done].
  by destruct k.
Qed.

(** A blocked store makes [getItem] throw; the [catch] ignores it and
    nothing was assigned. *)
Lemma loadApiKey_blocked (s : browser) :
  storageBlocked s = true -> exec loadApiKey s = s.
Proof. intros Hb. script. by rewrite Hb. Qed.

Lemma loadApiKey_field (s : browser) :
  storageBlocked s = false ->
  apiKeyInput (exec loadApiKey s)
  = match localStorage s !! "tmdb_api_key" with
    | Some k => if bool_decide (5 < length k) then k else apiKeyInput s
    | None => apiKeyInput s
    end.
Proof.
  intros Hok. script. rewrite Hok. simpl.
  destruct (localStorage s !! "tmdb_api_key") as [k|]; simpl; [|done].
  case_bool_decide; simpl; [|done].
  destruct k; simpl in *; [lia|done].
Qed.

Lemma saveApiKey_store (key : jsstr) (s : browser) :
  storageBlocked s = false ->
  storageBlocked (exec (saveApiKey key) s) = false
  /\ localStorage (exec (saveApiKey key) s) = <["tmdb_api_key" := key]> (localStorage s)
  /\ apiKey (exec (saveApiKey key) s) = Some key.
Proof. intros Hok. script. rewrite Hok. simpl. by rewrite Hok. Qed.

End Credential.

(** C9.  With a working store, [saveApiKey(key)] followed by [loadApiKey()]
    leaves exactly [key] as the credential, for every [key] of 10 code units
    or more. *)
Theorem save_then_load (key : jsstr) (s : browser) :
  storageBlocked s = false ->
  10 <= length key ->
  apiKey (exec loadApiKey (exec (saveApiKey key) s)) = Some key.
Proof.
  intros Hok Hlen.
  destruct (saveApiKey_store key s Hok) as (Hok' & Hstore & _).
  rewrite loadApiKey_apiKey by done. rewrite Hstore, lookup_insert_eq.
  case_bool_decide; [done|lia].
Qed.

Lemma save_then_load_witness :
  10 <= length (lit "0123456789abcdef")
  /\ apiKey (exec loadApiKey
               (exec (saveApiKey (lit "0123456789abcdef"))
                  (page false ∅ [] true (Some None))))
     = Some (lit "0123456789abcdef").
Proof.
  split; [vm_compute; lia|].
  apply save_then_load; [reflexivity | vm_compute; lia].
Defined.

(** ** How the fetch-and-render pieces run *)

Lemma untouched_refl s : untouched s s.
Proof. by constructor. Qed.

Lemma untouched_trans s1 s2 s3 :
  untouched s1 s2 -> untouched s2 s3 -> untouched s1 s3.
Proof. intros [] []. constructor; congruence. Qed.

Lemma quiet_refl s : quiet s s.
Proof. exists []. by rewrite app_nil_r. Qed.

Lemma quiet_trans s1 s2 s3 : quiet s1 s2 -> quiet s2 s3 -> quiet s1 s3.
Proof.
  intros (m1 & E1 & C1 & F1) (m2 & E2 & C2 & F2). exists (m1 ++ m2).
  unfold calls, fired in *.
  by rewrite E2, E1, <- app_assoc, !omap_app, C1, C2, F1, F2.
Qed.

Lemma quiet_calls s s' : quiet s s' -> calls (trace s') = calls (trace s).
Proof.
  intros (m & E & C & _). unfold calls in *.
  by rewrite E, omap_app, C, app_nil_r.
Qed.

Lemma quiet_fired s s' : quiet s s' -> fired (trace s') = fired (trace s).
Proof.
  intros (m & E & _ & F). unfold fired in *.
  by rewrite E, omap_app, F, app_nil_r.
Qed.

Ltac pieces :=
  unfold exec, guarded, render_data, finally, try_catch, notifyError, setBusy,
    renderMovies, fetchJson, fetchJson_response, res_json, fetch,
    new_AbortController, abort, buildSearchUrl, buildTrendingUrl,
    modify, read, throw, await, log, of_result;
  unfold mbind, mret, M_bind, M_ret.

Section Pieces.
Context `{Platform}.

Lemma setBusy_run b s :
  setBusy b s
  = (Done tt, match moviesSection s with
              | None => s
              | Some _ => set_moviesSection (Some (Some b)) s
              end).
Proof. pieces. by destruct (moviesSection s). Qed.

Lemma notifyError_run e s :
  notifyError e s
  = (Done tt,
     set_moviesGrid [ErrorBox (shown e)] (set_trace (trace s ++ [ConsoleError e]) s)).
Proof. done. Qed.

(** [guarded] by the way its body ends. *)
Lemma guarded_run body s :
  exec (guarded body) s
  = match body s with
    | (Done _, s1) => exec (setBusy false) s1
    | (Thrown e, s1) => exec (setBusy false) (exec (notifyError e) s1)
    | (Awaiting, s1) => s1
    end.
Proof.
  unfold exec, guarded, finally, try_catch.
  destruct (body s) as [[[]|e|] s1]; cbv beta iota.
  - by rewrite !setBusy_run.
  - by rewrite notifyError_run, !setBusy_run.
  - done.
Qed.

Lemma setBusy_untouched b s : untouched s (exec (setBusy b) s).
Proof. unfold exec. rewrite setBusy_run. destruct (moviesSection s); simpl; by constructor. Qed.

Lemma setBusy_quiet b s : quiet s (exec (setBusy b) s).
Proof.
  unfold exec. rewrite setBusy_run.
  destruct (moviesSection s); exists []; simpl; by rewrite app_nil_r.
Qed.

Lemma notifyError_untouched e s : untouched s (exec (notifyError e) s).
Proof. by constructor. Qed.

Lemma notifyError_quiet e s : quiet s (exec (notifyError e) s).
Proof. by exists [ConsoleError e]. Qed.

(** A guarded body that keeps a property of states keeps it guarded. *)
Lemma guarded_keeps (R : browser -> browser -> Prop) body s :
  (forall s1 s2 s3, R s1 s2 -> R s2 s3 -> R s1 s3) ->
  (forall b s1, R s1 (exec (setBusy b) s1)) ->
  (forall e s1, R s1 (exec (notifyError e) s1)) ->
  R s (exec body s) ->
  R s (exec (guarded body) s).
Proof.
  intros Htrans Hbusy Herr Hbody. rewrite guarded_run.
  unfold exec in Hbody at 1. destruct (body s) as [[[]|e|] s1]; simpl in Hbody.
  - eauto.
  - eapply Htrans; [done|]. eapply Htrans; [apply Herr|apply Hbusy].
  - done.
Qed.

End Pieces.

Section Dispatch.
Context `{Platform}.

Lemma filter_rid_same c ph : filter (fun r => rid r ≠ c) [Request c ph] = [].
Proof. rewrite filter_cons, decide_False; [done|]. simpl. by intros []. Qed.

(** Reading a state field by field. *)
Lemma browser_eta s :
  s = Browser (apiKey s) (abortController s) (debounceTimer s) (apiKeyInput s)
        (searchInput s) (settingsHidden s) (moviesGrid s) (moviesSection s)
        (storageBlocked s) (localStorage s) (inflight s) (microtasks s)
        (controllers s) (clock s) (timers s) (timerIds s) (trace s).
Proof. by destruct s. Qed.

(** [fetchJson] without a credential throws before touching anything. *)
Lemma fetchJson_no_key url s :
  nonempty (apiKey s) = false ->
  fetchJson url s
  = (Thrown (NewError (lit "Missing TMDb API key. Click the gear icon to set it.")), s).
Proof. intros Hk. pieces. simpl. by rewrite Hk. Qed.

Lemma filter_rid_absent a (l : list request) :
  a ∉ rid <$> l -> filter (fun r => rid r ≠ a) l = l.
Proof.
  induction l as [|r l IH]; [done|].
  rewrite fmap_cons, not_elem_of_cons. intros [Hne Hl].
  rewrite filter_cons, decide_True by done. by rewrite IH.
Qed.

Lemma filter_rid_opt (o : option nat) (l : list request) :
  filter (fun r => Some (rid r) ≠ o) l
  = match o with
    | Some a => filter (fun r => rid r ≠ a) l
    | None => l
    end.
Proof.
  destruct o as [a|].
  - apply list_filter_iff. intros r. split; congruence.
  - induction l as [|r l IH]; [done|].
    rewrite filter_cons, decide_True by done. by rewrite IH.
Qed.

Lemma fetchJson_key url s :
  nonempty (apiKey s) = true ->
  fetchJson url s = (Awaiting, dispatched url s).
Proof.
  intros Hk. unfold dispatched. rewrite filter_rid_opt.
  pieces. simpl. rewrite Hk. simpl.
  destruct (abortController s) as [a|] eqn:Ha; simpl.
  - case_bool_decide as Hin; simpl.
    + rewrite (browser_eta s) at 1. simpl. rewrite <- app_assoc. done.
    + rewrite filter_rid_absent by done.
      rewrite (browser_eta s) at 1. simpl. rewrite app_nil_r, <- app_assoc. done.
  - rewrite app_nil_r.
    rewrite (browser_eta s) at 1. done.
Qed.

End Dispatch.

Section Issue.
Context `{Platform}.

Lemma build_pure b s : (build b s).2 = s.
Proof.
  destruct b as [q|]; unfold build; pieces; simpl; [|done].
  by destruct (encodeURIComponent (trim q)).
Qed.

Lemma build_no_await b s : (build b s).1 ≠ Awaiting.
Proof.
  destruct b as [q|]; unfold build; pieces; simpl; [|done].
  by destruct (encodeURIComponent (trim q)).
Qed.

Lemma setBusy_apiKey b s : apiKey (exec (setBusy b) s) = apiKey s.
Proof. apply setBusy_untouched. Qed.

Lemma setBusy_exec b s :
  exec (setBusy b) s
  = match moviesSection s with
    | Some _ => set_moviesSection (Some (Some b)) s
    | None => s
    end.
Proof. unfold exec. by rewrite setBusy_run. Qed.

(** Either entry point, from the call to the first suspension or to its
    end. *)
Lemma issue_run b s :
  exec (issue b) s
  = let s1 := exec (setBusy true) (set_trace (trace s ++ [call_obs b]) s) in
    match (build b s1).1 with
    | Done url =>
        if nonempty (apiKey s) then dispatched url s1
        else exec (setBusy false)
               (exec (notifyError
                        (NewError (lit "Missing TMDb API key. Click the gear icon to set it.")))
                  s1)
    | Thrown e => exec (setBusy false) (exec (notifyError e) s1)
    | Awaiting => s1
    end.
Proof.
  cbv zeta.
  set (s0 := set_trace (trace s ++ [call_obs b]) s).
  assert (Hissue : exec (issue b) s
                   = exec (guarded (setBusy true;; url ← build b; fetchJson url)) s0).
  { by destruct b. }
  rewrite Hissue, guarded_run.
  unfold mbind at 1, M_bind at 1. rewrite setBusy_run.
  rewrite <- (setBusy_exec true s0).
  set (s1 := exec (setBusy true) s0).
  unfold mbind at 1, M_bind at 1.
  pose proof (build_pure b s1) as Hpure.
  destruct (build b s1) as [[url|e|] s2] eqn:Hb; simpl in Hpure; subst s2; simpl.
  - assert (Hkey : apiKey s1 = apiKey s) by (subst s1; by rewrite setBusy_apiKey).
    destruct (nonempty (apiKey s)) eqn:Hk.
    + rewrite fetchJson_key by (by rewrite Hkey). done.
    + rewrite fetchJson_no_key by (by rewrite Hkey). done.
  - done.
  - done.
Qed.

End Issue.

Lemma same_net_refl s : same_net s s.
Proof. by constructor. Qed.

Lemma same_net_trans s1 s2 s3 : same_net s1 s2 -> same_net s2 s3 -> same_net s1 s3.
Proof. intros [] []. constructor; congruence. Qed.

Section Net.
Context `{Platform}.

Lemma setBusy_same_net b s : same_net s (exec (setBusy b) s).
Proof. rewrite setBusy_exec. destruct (moviesSection s); by constructor. Qed.

Lemma notifyError_same_net e s : same_net s (exec (notifyError e) s).
Proof. by constructor. Qed.

Lemma setBusy_grid b s : moviesGrid (exec (setBusy b) s) = moviesGrid s.
Proof. rewrite setBusy_exec. by destruct (moviesSection s). Qed.

Lemma drain_none s : microtasks s = [] -> drain s = s.
Proof.
  intros Hm. unfold drain. rewrite Hm. simpl.
  rewrite (browser_eta s) at 2. by rewrite Hm.
Qed.

Lemma drain_one a s :
  microtasks s = [a] ->
  drain s
  = exec (setBusy false)
      (exec (notifyError (Platform_error Aborted)) (set_microtasks [] s)).
Proof.
  intros Hm. unfold drain. rewrite Hm. simpl. by rewrite guarded_run.
Qed.

Lemma entered_same_net b s : same_net s (entered b s).
Proof.
  unfold entered. eapply same_net_trans; [|apply setBusy_same_net].
  by constructor.
Qed.

Lemma entered_untouched b s : untouched s (entered b s).
Proof.
  unfold entered. eapply untouched_trans; [|apply setBusy_untouched].
  by constructor.
Qed.

Lemma entered_grid b s : moviesGrid (entered b s) = moviesGrid s.
Proof. unfold entered. by rewrite setBusy_grid. Qed.

(** An entry point that does not reach [fetch]: no credential, or a query
    that cannot be encoded. *)
Lemma issue_no_dispatch b s :
  (nonempty (apiKey s) = false \/ forall url, (build b (entered b s)).1 ≠ Done url) ->
  same_net s (exec (issue b) s)
  /\ untouched s (exec (issue b) s)
  /\ exists e, moviesGrid (exec (issue b) s) = [ErrorBox (shown e)].
Proof.
  intros Hno. rewrite issue_run. cbv zeta. fold (entered b s).
  pose proof (build_no_await b (entered b s)) as Hna.
  assert (Hfail : forall e,
    same_net s (exec (setBusy false) (exec (notifyError e) (entered b s)))
    /\ untouched s (exec (setBusy false) (exec (notifyError e) (entered b s)))
    /\ exists e', moviesGrid (exec (setBusy false) (exec (notifyError e) (entered b s)))
                  = [ErrorBox (shown e')]).
  { intros e. split_and!.
    - eapply same_net_trans; [apply entered_same_net|].
      eapply same_net_trans; [apply notifyError_same_net|apply setBusy_same_net].
    - eapply untouched_trans; [apply entered_untouched|].
      eapply untouched_trans; [apply notifyError_untouched|apply setBusy_untouched].
    - exists e. by rewrite setBusy_grid. }
  destruct ((build b (entered b s)).1) as [url|e|] eqn:Hb; [|by apply Hfail|done].
  destruct Hno as [Hk|Hu]; [|by destruct (Hu url)].
  rewrite Hk. apply Hfail.
Qed.

(** An entry point that reaches [fetch], once the rejection of the fetch
    it aborted (if one was pending) has run. *)
Lemma issue_dispatch b s url :
  microtasks s = [] ->
  (inflight s = [] \/
   exists a ph, inflight s = [Request a ph] /\ abortController s = Some a) ->
  nonempty (apiKey s) = true ->
  (build b (entered b s)).1 = Done url ->
  let s' := task (issue b) s in
  inflight s' = [Request (controllers s) AwaitResponse]
  /\ abortController s' = Some (controllers s)
  /\ controllers s' = S (controllers s)
  /\ microtasks s' = []
  /\ untouched s s'
  /\ moviesGrid s'
     = (if bool_decide (inflight s = []) then moviesGrid s
        else [ErrorBox (shown (Platform_error Aborted))]).
Proof.
  intros Hm Hin Hk Hb. cbv zeta. unfold task. rewrite issue_run. cbv zeta.
  fold (entered b s). rewrite Hb, Hk.
  destruct (entered_same_net b s) as [Ei Ea Ec Em _].
  pose proof (entered_untouched b s) as Hu.
  pose proof (entered_grid b s) as Hg.
  set (s1 := entered b s) in *.
  destruct Hin as [Hnil|(a & ph & Hone & Hctl)].
  - assert (Hmt : microtasks (dispatched url s1) = []).
    { unfold dispatched. simpl. rewrite Em, Hm, Ei, Hnil. simpl.
      by destruct (abortController s1). }
    rewrite (drain_none _ Hmt). rewrite Hnil. simpl.
    unfold dispatched. simpl. rewrite Ei, Hnil, Ec, Em, Hm. simpl.
    split_and!; try done.
    + by destruct (abortController s1).
    + destruct Hu. by constructor.
  - assert (Hmt : microtasks (dispatched url s1) = [a]).
    { unfold dispatched. simpl. rewrite Em, Hm, Ei, Hone, Ea, Hctl. simpl.
      by rewrite bool_decide_eq_true_2 by apply list_elem_of_here. }
    rewrite (drain_one _ _ Hmt), Hone. simpl.
    set (s2 := set_microtasks [] (dispatched url s1)).
    destruct (setBusy_same_net false (exec (notifyError (Platform_error Aborted)) s2))
      as [Fi Fa Fc Fm _].
    rewrite Fi, Fa, Fc, Fm, setBusy_grid. simpl.
    rewrite filter_rid_opt, Ei, Ea, Hctl, Hone, filter_rid_same, Ec. simpl.
    split_and!; try done.
    eapply untouched_trans; [|apply setBusy_untouched].
    destruct Hu. by constructor.
Qed.

End Net.

(** ** Every piece keeps to its fields *)

Section Frames.
Context `{Platform}.

Lemma dispatched_untouched url s : untouched s (dispatched url s).
Proof. by constructor. Qed.

Lemma dispatched_quiet url s : quiet s (dispatched url s).
Proof.
  eexists. split; [reflexivity|].
  by destruct (abortController s).
Qed.

Lemma calls_snoc tr o : calls (tr ++ [o]) = calls tr ++ calls [o].
Proof. apply omap_app. Qed.

Lemma fired_snoc tr o : fired (tr ++ [o]) = fired tr ++ fired [o].
Proof. apply omap_app. Qed.

(** From the call on, an entry point only adds its own call to the calls
    of the trace. *)
Lemma issue_frames b s :
  untouched s (exec (issue b) s)
  /\ calls (trace (exec (issue b) s)) = calls (trace s) ++ [b]
  /\ fired (trace (exec (issue b) s)) = fired (trace s).
Proof.
  rewrite issue_run. cbv zeta. fold (entered b s).
  assert (Hent : untouched s (entered b s)
                 /\ calls (trace (entered b s)) = calls (trace s) ++ [b]
                 /\ fired (trace (entered b s)) = fired (trace s)).
  { unfold entered. set (s0 := set_trace (trace s ++ [call_obs b]) s).
    split_and!.
    - eapply untouched_trans; [|apply setBusy_untouched]. by constructor.
    - rewrite (quiet_calls _ _ (setBusy_quiet true s0)). simpl.
      rewrite calls_snoc. by destruct b.
    - rewrite (quiet_fired _ _ (setBusy_quiet true s0)). simpl.
      rewrite fired_snoc. destruct b; simpl; by rewrite app_nil_r. }
  destruct Hent as (Hu & Hc & Hf).
  assert (Hstep : forall s',
    untouched (entered b s) s' -> quiet (entered b s) s' ->
    untouched s s' /\ calls (trace s') = calls (trace s) ++ [b]
    /\ fired (trace s') = fired (trace s)).
  { intros s' Hu' Hq'. split_and!.
    - by eapply untouched_trans.
    - by rewrite (quiet_calls _ _ Hq').
    - by rewrite (quiet_fired _ _ Hq'). }
  assert (Hfail : forall e,
    untouched (entered b s) (exec (setBusy false) (exec (notifyError e) (entered b s)))
    /\ quiet (entered b s) (exec (setBusy false) (exec (notifyError e) (entered b s)))).
  { intros e. split.
    - eapply untouched_trans; [apply notifyError_untouched|apply setBusy_untouched].
    - eapply quiet_trans; [apply notifyError_quiet|apply setBusy_quiet]. }
  destruct ((build b (entered b s)).1) as [url|e|].
  - destruct (nonempty (apiKey s)).
    + apply Hstep; [apply dispatched_untouched|apply dispatched_quiet].
    + by apply Hstep; apply Hfail.
  - by apply Hstep; apply Hfail.
  - apply Hstep; [apply untouched_refl|apply quiet_refl].
Qed.

Lemma foldl_keeps {A} (R : browser -> browser -> Prop) (f : browser -> A -> browser)
    (l : list A) (s : browser) :
  (forall s1, R s1 s1) ->
  (forall s1 s2 s3, R s1 s2 -> R s2 s3 -> R s1 s3) ->
  (forall s1 a, R s1 (f s1 a)) ->
  R s (foldl f s l).
Proof.
  intros Hrefl Htrans Hf. revert s.
  induction l as [|a l IH]; intros s; simpl; [done|].
  eapply Htrans; [apply Hf|apply IH].
Qed.

Lemma rejection_untouched e s : untouched s (exec (guarded (throw e)) s).
Proof.
  rewrite guarded_run. simpl.
  eapply untouched_trans; [apply notifyError_untouched|apply setBusy_untouched].
Qed.

Lemma rejection_quiet e s : quiet s (exec (guarded (throw e)) s).
Proof.
  rewrite guarded_run. simpl.
  eapply quiet_trans; [apply notifyError_quiet|apply setBusy_quiet].
Qed.

Lemma drain_untouched s : untouched s (drain s).
Proof.
  unfold drain.
  apply untouched_trans with (set_microtasks [] s); [|apply (foldl_keeps untouched)].
  - by constructor.
  - apply untouched_refl.
  - apply untouched_trans.
  - intros. apply rejection_untouched.
Qed.

Lemma drain_quiet s : quiet s (drain s).
Proof.
  unfold drain.
  apply quiet_trans with (set_microtasks [] s); [|apply (foldl_keeps quiet)].
  - exists []. simpl. by rewrite app_nil_r.
  - apply quiet_refl.
  - apply quiet_trans.
  - intros. apply rejection_quiet.
Qed.

Lemma drain_microtasks s : microtasks (drain s) = [].
Proof.
  unfold drain.
  assert (Hall : forall l s0,
            microtasks s0 = [] ->
            microtasks (foldl (fun s1 (_ : nat) =>
                                 exec (guarded (throw (Platform_error Aborted))) s1) s0 l) = []).
  { induction l as [|a l IH]; intros s0 Hs0; simpl; [done|].
    apply IH. rewrite guarded_run. simpl.
    by rewrite (same_microtasks _ _ (setBusy_same_net false _)). }
  by apply Hall.
Qed.

End Frames.

(** ** The debounced search box *)

Ltac wiring :=
  unfold exec, debounced, on_input, on_submit, on_save, init, call_async,
    clearTimeout, setTimeout, showSettings,
    modify, read, throw, await, log, of_result;
  unfold mbind, mret, M_bind, M_ret.

Section Debounce.
Context `{Platform}.

Lemma debounced_run q s :
  exec (debounced q) s
  = let s0 := set_trace (trace s ++ [TimerFired q]) s in
    if bool_decide (3 ≤ length q) then exec (issue (Search q)) s0
    else if bool_decide (length q = 0) then exec (issue Trending) s0
    else s0.
Proof.
  wiring. simpl.
  case_bool_decide as H3; simpl.
  - by rewrite bool_decide_eq_false_2 by lia.
  - by case_bool_decide.
Qed.

Lemma on_input_fields s :
  let s' := exec on_input s in
  timers s'
  = match debounceTimer s with
    | Some i => filter (fun t => tid t ≠ i) (timers s)
    | None => timers s
    end ++ [Timer (timerIds s) (clock s + 300) (trim (searchInput s))]
  /\ debounceTimer s' = Some (timerIds s)
  /\ clock s' = clock s
  /\ trace s' = trace s.
Proof. wiring. simpl. by destruct (debounceTimer s). Qed.

(** What the callback adds to the trace. *)
Lemma debounced_trace q s :
  let s' := task (debounced q) s in
  fired (trace s') = fired (trace s) ++ [q]
  /\ calls (trace s') = calls (trace s) ++ debounced_calls q
  /\ untouched s s'.
Proof.
  cbv zeta. unfold task, debounced_calls.
  pose proof (drain_untouched (exec (debounced q) s)) as Hdu.
  rewrite (quiet_fired _ _ (drain_quiet _)), (quiet_calls _ _ (drain_quiet _)).
  rewrite debounced_run in *. cbv zeta in *.
  set (s0 := set_trace (trace s ++ [TimerFired q]) s) in *.
  assert (Hs0 : fired (trace s0) = fired (trace s) ++ [q]
                /\ calls (trace s0) = calls (trace s)
                /\ untouched s s0).
  { subst s0. simpl. rewrite fired_snoc, calls_snoc. simpl.
    by rewrite app_nil_r. }
  destruct Hs0 as (Hf & Hc & Hu).
  case_bool_decide; [|case_bool_decide].
  - destruct (issue_frames (Search q) s0) as (Hu' & Hc' & Hf').
    rewrite Hf', Hc', Hf, Hc. split_and!; try done.
    eapply untouched_trans; [|done]. by eapply untouched_trans.
  - destruct (issue_frames Trending s0) as (Hu' & Hc' & Hf').
    rewrite Hf', Hc', Hf, Hc. split_and!; try done.
    eapply untouched_trans; [|done]. by eapply untouched_trans.
  - rewrite Hf, Hc, app_nil_r. split_and!; try done.
    by eapply untouched_trans.
Qed.

Lemma filter_tid_same i d q : filter (fun t => tid t ≠ i) [Timer i d q] = [].
Proof. rewrite filter_cons, decide_False; [done|]. simpl. by intros []. Qed.

Lemma input_step text s :
  armed s ->
  let s' := step (Input_searchInput text) s in
  timers s' = [Timer (timerIds s) (clock s + 300) (trim text)]
  /\ debounceTimer s' = Some (timerIds s)
  /\ clock s' = clock s
  /\ fired (trace s') = fired (trace s)
  /\ calls (trace s') = calls (trace s).
Proof.
  intros Harmed. cbv zeta. unfold step, task.
  set (s1 := set_searchInput text s).
  destruct (on_input_fields s1) as (Ht & Hd & Hc & Htr).
  destruct (drain_untouched (exec on_input s1)) as [].
  rewrite (quiet_fired _ _ (drain_quiet _)), (quiet_calls _ _ (drain_quiet _)).
  rewrite same_timers0, same_debounceTimer0, same_clock0, Ht, Hd, Hc, Htr.
  subst s1. simpl. split_and!; try done.
  destruct Harmed as [Hnil|(i & d & q & Hone & Hdt & _)].
  - rewrite Hnil. by destruct (debounceTimer s).
  - by rewrite Hdt, Hone, filter_tid_same.
Qed.

Lemma elapse_early ms i d q s :
  timers s = [Timer i d q] -> (clock s + ms < d)%N ->
  step (Elapse ms) s = set_clock (clock s + ms) s.
Proof.
  intros Ht Hlt. unfold step, elapse. simpl. rewrite Ht.
  rewrite filter_cons, decide_False by (simpl; lia). done.
Qed.

Lemma elapse_idle ms s :
  timers s = [] -> step (Elapse ms) s = set_clock (clock s + ms) s.
Proof. intros Ht. unfold step, elapse. simpl. by rewrite Ht. Qed.

Lemma elapse_due ms i d q s :
  timers s = [Timer i d q] -> (d <= clock s + ms)%N ->
  step (Elapse ms) s
  = task (debounced q) (set_timers [] (set_clock (clock s + ms) s)).
Proof.
  intros Ht Hle. unfold step, elapse. simpl. rewrite Ht.
  rewrite filter_cons, decide_True by (simpl; lia). simpl.
  unfold fire. simpl. rewrite Ht. simpl.
  rewrite bool_decide_eq_true_2 by apply list_elem_of_here.
  by rewrite filter_tid_same.
Qed.

Lemma run_app evs1 evs2 s : run (evs1 ++ evs2) s = run evs2 (run evs1 s).
Proof. unfold run. apply foldl_app. Qed.

(** Keystrokes less than 300 ms apart fire nothing. *)
Lemma typing_quiet keys s :
  armed s ->
  Forall (fun k => (k.2 < 300)%N) keys ->
  armed (run (typing keys) s)
  /\ fired (trace (run (typing keys) s)) = fired (trace s)
  /\ calls (trace (run (typing keys) s)) = calls (trace s).
Proof.
  intros Harmed Hkeys. revert s Harmed.
  induction Hkeys as [|[text gap] keys Hgap _ IH]; intros s Harmed; [done|].
  change (typing ((text, gap) :: keys))
    with ([Input_searchInput text; Elapse gap] ++ typing keys).
  rewrite run_app. simpl in Hgap.
  destruct (input_step text s Harmed) as (Ht & Hd & Hc & Hf & Hcl).
  set (s1 := step (Input_searchInput text) s) in *.
  assert (Hs2 : run [Input_searchInput text; Elapse gap] s
                = set_clock (clock s1 + gap) s1).
  { change (run [Input_searchInput text; Elapse gap] s) with (step (Elapse gap) s1).
    apply (elapse_early _ _ _ _ _ Ht). lia. }
  rewrite Hs2.
  destruct (IH (set_clock (clock s1 + gap) s1)) as (Ha & Hf' & Hc').
  { right. exists (timerIds s), (clock s + 300)%N, (trim text). simpl.
    split_and!; try done. lia. }
  split_and!; [done| |].
  - by rewrite Hf'.
  - by rewrite Hc'.
Qed.

End Debounce.

(** C4.  Keystrokes that follow one another by less than 300 ms, then
    300 ms or more of silence: starting with no timeout pending, exactly one
    timeout fires over the whole run, it carries the trimmed text of the last
    keystroke, and the only entry-point calls are the ones the callback makes
    for that text; no timeout is left.  (The instance after the proof is the
    spec's example: a, ab, abc gives one search, for abc.) *)
Theorem debounce_fires_once `{Platform} (keys : list (jsstr * N)) (text : jsstr)
    (wait : N) (s : browser) :
  timers s = [] ->
  Forall (fun k => (k.2 < 300)%N) keys ->
  (300 <= wait)%N ->
  let s' := run (typing keys ++ [Input_searchInput text; Elapse wait]) s in
  fired (trace s') = fired (trace s) ++ [trim text]
  /\ calls (trace s') = calls (trace s) ++ debounced_calls (trim text)
  /\ timers s' = [].
Proof.
  intros Hidle Hkeys Hwait. cbv zeta. rewrite run_app.
  destruct (typing_quiet keys s (or_introl Hidle) Hkeys) as (Harmed & Hf & Hc).
  set (s1 := run (typing keys) s) in *.
  destruct (input_step text s1 Harmed) as (Ht & Hd & Hcl & Hf2 & Hc2).
  change (run [Input_searchInput text; Elapse wait] s1)
    with (step (Elapse wait) (step (Input_searchInput text) s1)).
  set (s2 := step (Input_searchInput text) s1) in *.
  rewrite (elapse_due wait _ _ _ s2 Ht) by lia.
  destruct (debounced_trace (trim text)
              (set_timers [] (set_clock (clock s2 + wait) s2)))
    as (Hf3 & Hc3 & Hu).
  rewrite Hf3, Hc3. simpl. rewrite Hf2, Hc2, Hf, Hc.
  split_and!; try done.
  by rewrite (same_timers _ _ Hu).
Qed.

Lemma debounce_fires_once_witness :
  calls (trace (@run demo_platform
                  [Input_searchInput (lit "a"); Elapse 120;
                   Input_searchInput (lit "ab"); Elapse 120;
                   Input_searchInput (lit "abc"); Elapse 300]
                  demo_boot))
  = calls (trace demo_boot) ++ [Search (lit "abc")].
Proof.
  refine (proj1 (proj2
    (@debounce_fires_once demo_platform
       [(lit "a", 120%N); (lit "ab", 120%N)] (lit "abc") 300%N demo_boot
       eq_refl _ _))).
  - repeat constructor.
  - vm_compute. discriminate.
Defined.

(** C5.  The timeout set by an input event keeps the trimmed text of the
    box.  When it fires: for 3 code units or more it runs [searchMovies] on
    that text; for the empty text it runs [loadTrending]; for 1 or 2 code
    units it calls neither and leaves the page as it is. *)
Theorem debounced_by_length `{Platform} (q : jsstr) (s : browser) :
  let s0 := set_trace (trace s ++ [TimerFired q]) s in
  (forall text, last (timers (step (Input_searchInput text) s))
                = Some (Timer (timerIds s) (clock s + 300) (trim text)))
  /\ (3 <= length q ->
      exec (debounced q) s = exec (searchMovies q) s0
      /\ calls (trace (task (debounced q) s)) = calls (trace s) ++ [Search q])
  /\ (length q = 0 ->
      exec (debounced q) s = exec loadTrending s0
      /\ calls (trace (task (debounced q) s)) = calls (trace s) ++ [Trending])
  /\ (1 <= length q <= 2 ->
      exec (debounced q) s = s0
      /\ calls (trace (task (debounced q) s)) = calls (trace s)).
Proof.
  cbv zeta.
  destruct (debounced_trace q s) as (_ & Hc & _).
  rewrite Hc, debounced_run. cbv zeta. unfold debounced_calls.
  split_and!.
  - intros text. unfold step, task.
    rewrite (same_timers _ _ (drain_untouched _)).
    destruct (on_input_fields (set_searchInput text s)) as (Ht & _).
    rewrite Ht. simpl. by rewrite last_snoc.
  - intros Hlen. by rewrite !bool_decide_eq_true_2 by done.
  - intros Hlen.
    rewrite !(bool_decide_eq_false_2 (3 ≤ length q)) by lia.
    by rewrite !bool_decide_eq_true_2 by done.
  - intros Hlen.
    rewrite !(bool_decide_eq_false_2 (3 ≤ length q)) by lia.
    rewrite !(bool_decide_eq_false_2 (length q = 0)) by lia.
    by rewrite app_nil_r.
Qed.

Lemma debounced_by_length_witness :
  1 <= length (lit "ab") <= 2
  /\ calls (trace (@task demo_platform (@debounced demo_platform (lit "ab")) demo_boot))
     = calls (trace demo_boot).
Proof.
  split; [vm_compute; lia|].
  refine (proj2 (proj2 (proj2 (proj2
    (@debounced_by_length demo_platform (lit "ab") demo_boot))) _)).
  vm_compute. lia.
Defined.

(** ** Start-up *)

Section Boot.
Context `{Platform}.

Lemma loadApiKey_done s : (loadApiKey s).1 = Done tt.
Proof.
  script. destruct (storageBlocked s); simpl; [done|].
  destruct (localStorage s !! "tmdb_api_key") as [k|]; simpl; [|done].
  case_bool_decide; simpl; [|done]. by destruct k.
Qed.

Lemma init_run s :
  exec init s
  = let s1 := exec loadApiKey s in
    if nonempty (apiKey s1) then exec (issue Trending) s1
    else set_settingsHidden false s1.
Proof.
  cbv zeta. unfold init, exec at 1.
  unfold mbind at 1, M_bind at 1.
  pose proof (loadApiKey_done s) as Hd. unfold exec.
  destruct (loadApiKey s) as [o s1]. simpl in Hd. subst o. simpl.
  wiring. simpl. by destruct (nonempty (apiKey s1)).
Qed.

Lemma boot_untouched blocked store field hidden section :
  let s0 := page blocked store field hidden section in
  apiKey (boot blocked store field hidden section) = apiKey (exec loadApiKey s0)
  /\ apiKeyInput (boot blocked store field hidden section)
     = apiKeyInput (exec loadApiKey s0).
Proof.
  cbv zeta. unfold boot, task.
  destruct (drain_untouched
              (exec init (page blocked store field hidden section))) as [].
  rewrite same_apiKey0, same_apiKeyInput0, init_run. cbv zeta.
  destruct (nonempty _); [|done].
  by destruct (issue_frames Trending
                 (exec loadApiKey (page blocked store field hidden section)))
    as ([] & _).
Qed.

End Boot.

(** C8.  [loadApiKey] leaves no credential when the stored string has at
    most 5 code units, when there is no stored entry, and when the store
    cannot be read (nothing is assigned then, and the credential is still
    the [null] it is declared with when [init], its only caller, runs it: a
    page whose store is blocked starts without a credential); whatever it
    adopts is the stored string, and that string is longer than 5. *)
Theorem loadApiKey_short_or_missing `{Platform} (s : browser) :
  (forall k, storageBlocked s = false ->
             localStorage s !! "tmdb_api_key" = Some k ->
             length k <= 5 ->
             apiKey (exec loadApiKey s) = None)
  /\ (storageBlocked s = false ->
      localStorage s !! "tmdb_api_key" = None ->
      apiKey (exec loadApiKey s) = None)
  /\ (storageBlocked s = true -> apiKey s = None ->
      apiKey (exec loadApiKey s) = None)
  /\ (forall store field hidden section,
        apiKey (boot true store field hidden section) = None)
  /\ (forall k, apiKey s = None ->
                apiKey (exec loadApiKey s) = Some k ->
                storageBlocked s = false
                /\ localStorage s !! "tmdb_api_key" = Some k
                /\ 5 < length k).
Proof.
  split_and!.
  - intros k Hok Hk Hlen. rewrite loadApiKey_apiKey, Hk by done.
    case_bool_decide; [lia|done].
  - intros Hok Hnone. by rewrite loadApiKey_apiKey, Hnone.
  - intros Hb Hs. by rewrite loadApiKey_blocked.
  - intros store field hidden section.
    destruct (boot_untouched true store field hidden section) as (-> & _).
    by rewrite loadApiKey_blocked.
  - intros k Hs Hk.
    destruct (storageBlocked s) eqn:Hb.
    { rewrite loadApiKey_blocked in Hk by done. congruence. }
    rewrite loadApiKey_apiKey in Hk by done.
    destruct (localStorage s !! "tmdb_api_key") as [k'|]; [|done].
    case_bool_decide; by simplify_eq.
Qed.

Lemma loadApiKey_short_or_missing_witness :
  length (lit "abcde") <= 5
  /\ apiKey (exec loadApiKey
               (page false short_store [] true (Some None))) = None.
Proof.
  split; [vm_compute; lia|].
  refine (proj1 (@loadApiKey_short_or_missing demo_platform
                   (page false short_store [] true (Some None)))
            (lit "abcde") eq_refl eq_refl _).
  vm_compute; lia.
Defined.

(** C10.  Whenever [loadApiKey] adopts the stored credential (a stored
    string longer than 5, the store readable) it also writes it into the
    credential field of the settings panel, so a page that starts with such
    an entry in the store comes up with the token in that field. *)
Theorem loadApiKey_echoes_key `{Platform} (store : gmap string jsstr) (k : jsstr) :
  store !! "tmdb_api_key" = Some k ->
  5 < length k ->
  (forall s, storageBlocked s = false -> localStorage s = store ->
             apiKey (exec loadApiKey s) = Some k
             /\ apiKeyInput (exec loadApiKey s) = k)
  /\ (forall field hidden section,
        apiKey (boot false store field hidden section) = Some k
        /\ apiKeyInput (boot false store field hidden section) = k).
Proof.
  intros Hk Hlen.
  assert (Hload : forall s, storageBlocked s = false -> localStorage s = store ->
             apiKey (exec loadApiKey s) = Some k
             /\ apiKeyInput (exec loadApiKey s) = k).
  { intros s Hok Hs.
    rewrite loadApiKey_apiKey, loadApiKey_field, Hs, Hk by done.
    by rewrite !bool_decide_eq_true_2 by done. }
  split; [done|].
  intros field hidden section.
  destruct (boot_untouched false store field hidden section) as (-> & ->).
  by apply Hload.
Qed.

Lemma loadApiKey_echoes_key_witness :
  apiKeyInput demo_boot = lit "0123456789abcdef".
Proof.
  refine (proj2 (proj2
    (@loadApiKey_echoes_key demo_platform demo_store (lit "0123456789abcdef")
       eq_refl _) [] true (Some None))).
  vm_compute. lia.
Defined.

(** ** The request discipline *)

Section Discipline.
Context `{Platform}.

Lemma net_inv_same s s' : net_inv s -> same_net s s' -> net_inv s'.
Proof.
  intros [Hm Hi Hf Hk] [Ei Ea Ec Em Ek].
  constructor; rewrite ?Ei, ?Ea, ?Ec, ?Em, ?Ek; auto.
Qed.

Lemma net_inv_key s s' :
  net_inv s ->
  inflight s' = inflight s -> abortController s' = abortController s ->
  controllers s' = controllers s -> microtasks s' = microtasks s ->
  nonempty (apiKey s') = true ->
  net_inv s'.
Proof.
  intros [Hm Hi Hf Hk] Ei Ea Ec Em Ek.
  constructor; rewrite ?Ei, ?Ea, ?Ec, ?Em; auto.
Qed.

Lemma net_inv_idle s s' :
  net_inv s ->
  inflight s' = [] -> abortController s' = abortController s ->
  controllers s' = controllers s -> microtasks s' = [] ->
  net_inv s'.
Proof.
  intros [Hm Hi Hf Hk] Ei Ea Ec Em.
  constructor; rewrite ?Ei, ?Ea, ?Ec, ?Em; auto.
Qed.

Lemma task_same_net m s :
  microtasks s = [] -> same_net s (exec m s) -> task m s = exec m s.
Proof.
  intros Hm [_ _ _ Em _]. unfold task. apply drain_none. by rewrite Em.
Qed.

Lemma task_issue_inv b s : net_inv s -> net_inv (task (issue b) s).
Proof.
  intros Hinv. pose proof Hinv as [Hm Hi Hf Hk].
  assert (Hno : (nonempty (apiKey s) = false
                 \/ forall url, (build b (entered b s)).1 ≠ Done url) ->
                net_inv (task (issue b) s)).
  { intros Hcase. destruct (issue_no_dispatch b s Hcase) as (Hs & _ & _).
    rewrite (task_same_net _ _ Hm Hs). by apply (net_inv_same s). }
  destruct (nonempty (apiKey s)) eqn:Hkey; [|by apply Hno; left].
  destruct ((build b (entered b s)).1) as [url|e|] eqn:Hb;
    [|by apply Hno; right..].
  destruct (issue_dispatch b s url Hm Hi Hkey Hb) as (Ei & Ea & Ec & Em & Hu & _).
  constructor.
  - done.
  - right. by exists (controllers s), AwaitResponse.
  - intros c. rewrite Ea, Ec. intros [= <-]. lia.
  - intros _. by rewrite (same_apiKey _ _ Hu).
Qed.

Lemma saveApiKey_run key s :
  exec (saveApiKey key) s
  = if storageBlocked s then s
    else set_apiKey (Some key)
           (set_localStorage (<["tmdb_api_key" := key]> (localStorage s)) s).
Proof. script. by destruct (storageBlocked s). Qed.

Lemma on_save_run s :
  exec on_save s
  = let key := trim (apiKeyInput s) in
    if bool_decide (length key < 10)
    then set_trace (trace s ++ [Alert (lit "Please paste a valid TMDb API key.")]) s
    else exec (issue Trending) (set_settingsHidden true (exec (saveApiKey key) s)).
Proof.
  cbv zeta. wiring. simpl. case_bool_decide; [done|].
  unfold saveApiKey, setItem, try_catch. wiring. simpl.
  by destruct (storageBlocked s).
Qed.

Lemma on_submit_run s :
  exec on_submit s
  = let q := trim (searchInput s) in
    if bool_decide (length q = 0) then s else exec (issue (Search q)) s.
Proof. cbv zeta. wiring. simpl. by case_bool_decide. Qed.

Lemma loadApiKey_net s :
  inflight (exec loadApiKey s) = inflight s
  /\ abortController (exec loadApiKey s) = abortController s
  /\ controllers (exec loadApiKey s) = controllers s
  /\ microtasks (exec loadApiKey s) = microtasks s.
Proof.
  script. destruct (storageBlocked s); simpl; [done|].
  destruct (localStorage s !! "tmdb_api_key") as [k|]; simpl; [|done].
  case_bool_decide; simpl; [|done]. by destruct k.
Qed.

Lemma net_inv_fire t s : net_inv s -> net_inv (fire t s).
Proof.
  intros Hinv. unfold fire. case_bool_decide; [|done].
  set (s1 := set_timers _ s).
  assert (Hs1 : net_inv s1) by (by apply (net_inv_same s)).
  unfold task. rewrite debounced_run. cbv zeta.
  set (s2 := set_trace _ s1).
  assert (Hs2 : net_inv s2) by (by apply (net_inv_same s1)).
  case_bool_decide; [|case_bool_decide].
  - by apply task_issue_inv.
  - by apply task_issue_inv.
  - rewrite drain_none; [done|]. by destruct Hs2.
Qed.

Lemma net_inv_foldl_fire ts s :
  net_inv s -> net_inv (foldl (fun s t => fire t s) s ts).
Proof.
  revert s. induction ts as [|t ts IH]; intros s Hinv; simpl; [done|].
  apply IH. by apply net_inv_fire.
Qed.

Lemma render_data_same_net data s : same_net s (exec (render_data data) s).
Proof.
  pieces. simpl. destruct (get data "results") as [results|e]; simpl; [|done].
  match goal with |- context [mapM makeCard ?l] => by destruct (mapM makeCard l) end.
Qed.

Lemma guarded_same_net body s :
  same_net s (exec body s) -> same_net s (exec (guarded body) s).
Proof.
  apply (guarded_keeps same_net).
  - apply same_net_trans.
  - apply setBusy_same_net.
  - apply notifyError_same_net.
Qed.

(** A pending request is the one of the stored controller. *)
Lemma net_inv_pending c ph s :
  net_inv s -> Request c ph ∈ inflight s ->
  inflight s = [Request c ph] /\ abortController s = Some c
  /\ c < controllers s /\ nonempty (apiKey s) = true.
Proof.
  intros [Hm Hi Hf Hk] Hin.
  destruct Hi as [Hnil|(c' & ph' & Hone & Ha)].
  - rewrite Hnil in Hin. by apply elem_of_nil in Hin.
  - rewrite Hone in Hin. apply list_elem_of_singleton in Hin. simplify_eq.
    split_and!; auto. apply Hk. by rewrite Hone.
Qed.

Lemma net_inv_pending_rid c s :
  net_inv s -> c ∈ rid <$> inflight s ->
  exists ph, inflight s = [Request c ph].
Proof.
  intros Hinv Hin. apply list_elem_of_fmap in Hin as ([c' ph] & -> & Hin).
  exists ph. by apply (net_inv_pending _ _ _ Hinv Hin).
Qed.

Lemma remove_request_idle c ph s :
  net_inv s -> inflight s = [Request c ph] -> net_inv (remove_request c s).
Proof.
  intros Hinv Hone. apply (net_inv_idle s); try done.
  - unfold remove_request. simpl. by rewrite Hone, filter_rid_same.
  - by destruct Hinv.
Qed.

Lemma task_guarded_inv body s :
  net_inv s -> same_net s (exec body s) -> net_inv (task (guarded body) s).
Proof.
  intros Hinv Hbody. pose proof (guarded_same_net _ _ Hbody) as Hg.
  rewrite (task_same_net _ _ (inv_microtasks _ Hinv) Hg).
  by apply (net_inv_same s).
Qed.

Lemma task_plain_inv m s :
  net_inv s -> same_net s (exec m s) -> net_inv (task m s).
Proof.
  intros Hinv Hm. rewrite (task_same_net _ _ (inv_microtasks _ Hinv) Hm).
  by apply (net_inv_same s).
Qed.

Lemma response_run c status s :
  exec (guarded (fetchJson_response c status)) s
  = if res_ok status
    then set_inflight (inflight s ++ [Request c AwaitBody]) s
    else exec (setBusy false)
           (exec (notifyError
                    (NewError (lit "Request failed (" ++ dec status ++ lit ")"))) s).
Proof.
  rewrite guarded_run. unfold fetchJson_response.
  destruct (res_ok status); simpl; [|done]. by pieces.
Qed.

(** One event keeps the discipline. *)
Lemma step_inv ev s : net_inv s -> net_inv (step ev s).
Proof.
  intros Hinv. destruct ev as [| |back|text| | |text|ms|c status|c body|c]; simpl.
  - by apply task_plain_inv.
  - by apply task_plain_inv.
  - apply task_plain_inv; [done|]. by destruct back.
  - by apply (net_inv_same s).
  - unfold task. rewrite on_save_run. cbv zeta. case_bool_decide as Hlen.
    + rewrite drain_none by (by destruct Hinv). by apply (net_inv_same s).
    + apply task_issue_inv. rewrite saveApiKey_run.
      destruct (storageBlocked s); [by apply (net_inv_same s)|].
      apply (net_inv_key s); try done. simpl.
      destruct (trim (apiKeyInput s)); simpl in *; [lia|done].
  - unfold task. rewrite on_submit_run. cbv zeta. case_bool_decide.
    + by rewrite drain_none by (by destruct Hinv).
    + by apply task_issue_inv.
  - apply task_plain_inv; [by apply (net_inv_same s)|].
    wiring. simpl. by destruct (debounceTimer s).
  - unfold elapse. apply net_inv_foldl_fire. by apply (net_inv_same s).
  - case_bool_decide as Hin; [|done].
    destruct (net_inv_pending _ _ _ Hinv Hin) as (Hone & Ha & Hlt & Hkey).
    pose proof (remove_request_idle _ _ _ Hinv Hone) as Hinv1.
    set (s1 := remove_request c s) in *.
    unfold task. rewrite response_run. destruct (res_ok status).
    + rewrite drain_none by (by destruct Hinv1).
      constructor; simpl.
      * by destruct Hinv1.
      * right. exists c, AwaitBody. split; [|done].
        unfold remove_request. simpl. by rewrite Hone, filter_rid_same.
      * by destruct Hinv.
      * done.
    + rewrite drain_none.
      * apply (net_inv_same s1); [done|].
        eapply same_net_trans; [apply notifyError_same_net|apply setBusy_same_net].
      * rewrite (same_microtasks _ _ (setBusy_same_net _ _)). simpl.
        by destruct Hinv1.
  - case_bool_decide as Hin; [|done].
    destruct (net_inv_pending _ _ _ Hinv Hin) as (Hone & _).
    pose proof (remove_request_idle _ _ _ Hinv Hone) as Hinv1.
    apply task_guarded_inv; [done|].
    destruct body as [data|]; [apply render_data_same_net|done].
  - case_bool_decide as Hin; [|done].
    destruct (net_inv_pending_rid _ _ Hinv Hin) as (ph & Hone).
    pose proof (remove_request_idle _ _ _ Hinv Hone) as Hinv1.
    by apply task_guarded_inv.
Qed.












Lemma boot_inv blocked store field hidden section :
  net_inv (boot blocked store field hidden section).
Proof.
  unfold boot, task. rewrite init_run. cbv zeta.
  set (s0 := page blocked store field hidden section).
  destruct (loadApiKey_net s0) as (Ei & Ea & Ec & Em).
  assert (Hinv : net_inv (exec loadApiKey s0)).
  { constructor; rewrite ?Ei, ?Ea, ?Ec, ?Em; simpl; auto. done. }
  destruct (nonempty _).
  - by apply task_issue_inv.
  - rewrite drain_none by (simpl; by rewrite Em).
    by apply (net_inv_same (exec loadApiKey s0)).
Qed.

Lemma reachable_inv s : reachable s -> net_inv s.
Proof.
  induction 1 as [blocked store field hidden section|ev s _ IH].
  - apply boot_inv.
  - by apply step_inv.
Qed.

End Discipline.

Lemma reachable_run `{Platform} evs s : reachable s -> reachable (run evs s).
Proof.
  revert s. induction evs as [|ev evs IH]; intros s Hs; [done|].
  apply IH. by constructor.
Qed.

Lemma demo_boot_reachable : @reachable demo_platform demo_boot.
Proof. constructor. Qed.

(** C2.  Between any two events at most one results request is pending,
    and it is the one of the stored controller.  A [fetchJson] that gets
    past the credential check first calls [abort] on the stored controller
    (if there is one), then creates and stores a new controller and calls
    [fetch] on its signal, in this order; on a reachable page the request it
    leaves pending is the new one alone. *)
Theorem one_request_in_flight `{Platform} :
  (forall s, reachable s ->
     length (inflight s) <= 1
     /\ forall r, r ∈ inflight s -> abortController s = Some (rid r))
  /\ (forall url s, nonempty (apiKey s) = true ->
        (fetchJson url s).1 = Awaiting
        /\ trace (exec (fetchJson url) s)
           = trace s
               ++ match abortController s with
                  | Some a => [AbortCalled a]
                  | None => []
                  end
               ++ [FetchCalled (controllers s) url]
        /\ abortController (exec (fetchJson url) s) = Some (controllers s)
        /\ inflight (exec (fetchJson url) s)
           = filter (fun r => Some (rid r) ≠ abortController s) (inflight s)
               ++ [Request (controllers s) AwaitResponse])
  /\ (forall url s, reachable s -> nonempty (apiKey s) = true ->
        inflight (exec (fetchJson url) s) = [Request (controllers s) AwaitResponse]).
Proof.
  split_and!.
  - intros s Hs. destruct (reachable_inv s Hs) as [_ Hi _ _].
    destruct Hi as [->|(c & ph & -> & Ha)]; simpl.
    + split; [lia|]. intros r Hr. by apply elem_of_nil in Hr.
    + split; [lia|]. intros r Hr. apply list_elem_of_singleton in Hr. by subst r.
  - intros url s Hk. unfold exec. by rewrite (fetchJson_key url s Hk).
  - intros url s Hs Hk. unfold exec. rewrite (fetchJson_key url s Hk). simpl.
    destruct (reachable_inv s Hs) as [_ Hi _ _].
    destruct Hi as [->|(c & ph & -> & ->)]; [done|].
    by rewrite filter_rid_opt, filter_rid_same.
Qed.

Lemma one_request_in_flight_witness :
  length (inflight (@run demo_platform searching demo_boot)) <= 1.
Proof.
  refine (proj1 (proj1 (@one_request_in_flight demo_platform)
                   (@run demo_platform searching demo_boot) _)).
  apply reachable_run, demo_boot_reachable.
Defined.

(** ** What reaches the grid *)

Section Grid.
Context `{Platform}.

Lemma shown_request_failed status :
  shown (NewError (lit "Request failed (" ++ dec status ++ lit ")"))
  = lit "Request failed (" ++ dec status ++ lit ")".
Proof.
  unfold shown, err_message.
  rewrite bool_decide_eq_false_2; [done|]. unfold lit. simpl. discriminate.
Qed.

(** The grid after a guarded piece that ends by throwing. *)
Lemma thrown_grid e s :
  microtasks s = [] ->
  moviesGrid (task (guarded (throw e)) s) = [ErrorBox (shown e)]
  /\ same_net s (task (guarded (throw e)) s)
  /\ trace (task (guarded (throw e)) s) = trace s ++ [ConsoleError e].
Proof.
  intros Hm.
  assert (Hs : same_net s (exec (guarded (throw e)) s)) by (by apply guarded_same_net).
  rewrite (task_same_net _ _ Hm Hs). split_and!; [|done|].
  - rewrite guarded_run. simpl. by rewrite setBusy_grid.
  - rewrite guarded_run. simpl. rewrite setBusy_exec.
    by destruct (moviesSection _).
Qed.

(** A body whose [results] is not a list, read off an object or a
    primitive: the grid is emptied and nothing is reported. *)
Lemma non_list_body_renders_nothing data s :
  microtasks s = [] ->
  data <> VNull -> data <> VUndefined ->
  (forall items, field data "results" <> VArr items) ->
  moviesGrid (task (guarded (render_data data)) s) = []
  /\ trace (task (guarded (render_data data)) s) = trace s.
Proof.
  intros Hm Hnull Hundef Hres.
  pose proof (guarded_same_net _ _ (render_data_same_net data s)) as Hs.
  rewrite (task_same_net _ _ Hm Hs), guarded_run.
  unfold render_data, field in *.
  destruct (get data "results") as [results|e] eqn:Hget.
  - assert (Hitems : match results with VArr items => items | _ => [] end = []).
    { destruct results; try done. by destruct (Hres items). }
    pieces. simpl. rewrite Hitems. simpl.
    by destruct (moviesSection s).
  - by destruct data.
Qed.

End Grid.

(** C6.  On a reachable page, when the response to the pending fetch has a
    status outside 200..299, the grid becomes the single error box with the
    text [Request failed (<status>)], the status in decimal: no card is left
    and no request is pending. *)
Theorem failed_status_is_shown `{Platform} (c : nat) (status : N) (s : browser) :
  reachable s ->
  Request c AwaitResponse ∈ inflight s ->
  res_ok status = false ->
  let s' := step (Response c status) s in
  let text := lit "Request failed (" ++ dec status ++ lit ")" in
  moviesGrid s' = [ErrorBox text]
  /\ contains (dec status) text
  /\ (forall card, CardNode card ∉ moviesGrid s')
  /\ inflight s' = [].
Proof.
  intros Hs Hin Hbad. cbv zeta.
  pose proof (reachable_inv s Hs) as Hinv.
  destruct (net_inv_pending _ _ _ Hinv Hin) as (Hone & _).
  pose proof (remove_request_idle _ _ _ Hinv Hone) as Hinv1.
  assert (Hstep : step (Response c status) s
                  = task (guarded (throw (NewError
                       (lit "Request failed (" ++ dec status ++ lit ")"))))
                      (remove_request c s)).
  { simpl. rewrite bool_decide_eq_true_2 by done.
    unfold task. f_equal. rewrite response_run, Hbad. by rewrite guarded_run. }
  rewrite Hstep.
  destruct (thrown_grid
              (NewError (lit "Request failed (" ++ dec status ++ lit ")"))
              (remove_request c s) (inv_microtasks _ Hinv1)) as (Hg & Hnet & _).
  rewrite Hg, shown_request_failed, (same_inflight _ _ Hnet).
  split_and!.
  - done.
  - by exists (lit "Request failed ("), (lit ")").
  - intros card Hc. apply list_elem_of_singleton in Hc. discriminate.
  - unfold remove_request. simpl. by rewrite Hone, filter_rid_same.
Qed.

Lemma failed_status_is_shown_witness :
  moviesGrid (@run demo_platform searching demo_boot) = [CardNode dune_card]
  /\ moviesGrid (@step demo_platform (Response 1 401)
                   (@run demo_platform searching demo_boot))
     = [ErrorBox (lit "Request failed (401)")].
Proof.
  split; [reflexivity|].
  refine (proj1 (@failed_status_is_shown demo_platform 1 401%N
                   (@run demo_platform searching demo_boot) _ _ eq_refl)).
  - apply reachable_run, demo_boot_reachable.
  - vm_compute. apply list_elem_of_here.
Defined.

(** C3 (the case the code misses).  A response whose JSON body is [null]:
    reading [data.results] throws, the [catch] reports it, and the grid
    shows the error text instead of being emptied. *)
Theorem null_body_is_reported `{Platform} (c : nat) (s : browser) :
  reachable s ->
  Request c AwaitBody ∈ inflight s ->
  let s' := step (Body c (Some VNull)) s in
  moviesGrid s' = [ErrorBox (shown (Platform_error NullAccess))]
  /\ trace s' = trace s ++ [ConsoleError (Platform_error NullAccess)].
Proof.
  intros Hs Hin. cbv zeta.
  pose proof (reachable_inv s Hs) as Hinv.
  destruct (net_inv_pending _ _ _ Hinv Hin) as (Hone & _).
  pose proof (remove_request_idle _ _ _ Hinv Hone) as Hinv1.
  assert (Hstep : step (Body c (Some VNull)) s
                  = task (guarded (throw (Platform_error NullAccess)))
                      (remove_request c s)).
  { simpl. by rewrite bool_decide_eq_true_2 by done. }
  rewrite Hstep.
  destruct (thrown_grid (Platform_error NullAccess)
              (remove_request c s) (inv_microtasks _ Hinv1)) as (Hg & _ & Ht).
  by rewrite Hg, Ht.
Qed.

Lemma null_body_is_reported_witness :
  moviesGrid (@run demo_platform [Response 0 200; Body 0 (Some VNull)] demo_boot)
  = [ErrorBox (lit "Cannot read properties of null")].
Proof.
  refine (proj1 (@null_body_is_reported demo_platform 0
                   (@run demo_platform [Response 0 200] demo_boot) _ _)).
  - apply reachable_run, demo_boot_reachable.
  - vm_compute. apply list_elem_of_here.
Defined.

(** ** Supersession *)

Lemma build_encodable `{Platform} b s :
  encodable b -> exists url, (build b s).1 = Done url.
Proof.
  destruct b as [q|]; unfold build; pieces; simpl.
  - intros [q' ->]. by eexists.
  - intros _. by eexists.
Qed.




(** X1.  The permissive decoding where it works: on a reachable page, a
    parsed body that is not [null] and whose [results] is missing or not a
    list empties the grid and reports nothing (the trace is as before: no
    [console.error]). *)
Theorem non_list_body_is_empty_list `{Platform} (c : nat) (data : value)
    (s : browser) :
  reachable s ->
  Request c AwaitBody ∈ inflight s ->
  data <> VNull -> data <> VUndefined ->
  (forall items, field data "results" <> VArr items) ->
  moviesGrid (step (Body c (Some data)) s) = []
  /\ trace (step (Body c (Some data)) s) = trace s.
Proof.
  intros Hs Hin Hnull Hundef Hres.
  pose proof (reachable_inv s Hs) as Hinv.
  destruct (net_inv_pending _ _ _ Hinv Hin) as (Hone & _).
  pose proof (remove_request_idle _ _ _ Hinv Hone) as Hinv1.
  simpl. rewrite bool_decide_eq_true_2 by done.
  destruct (non_list_body_renders_nothing data (remove_request c s)
              (inv_microtasks _ Hinv1) Hnull Hundef Hres) as (Hg & Ht).
  by rewrite Hg, Ht.
Qed.

Lemma non_list_body_is_empty_list_witness :
  moviesGrid (@step demo_platform
                (Body 1 (Some (VObj [(lit "results", VStr (lit "none"))])))
                (@run demo_platform (searching ++ [Response 1 200%N]) demo_boot))
  = [].
Proof.
  refine (proj1 (@non_list_body_is_empty_list demo_platform 1
                   (VObj [(lit "results", VStr (lit "none"))])
                   (@run demo_platform (searching ++ [Response 1 200%N]) demo_boot)
                   _ _ _ _ _)).
  - apply reachable_run, demo_boot_reachable.
  - vm_compute. apply list_elem_of_here.
  - discriminate.
  - discriminate.
  - intros items. vm_compute. discriminate.
Defined.

(** * Further properties of the script *)

(** ** Fetching without a credential, and fetches that fail *)

Section Failures.
Context `{Platform}.

Lemma setBusy_trace b s : trace (exec (setBusy b) s) = trace s.
Proof. rewrite setBusy_exec. by destruct (moviesSection s). Qed.

Lemma shown_missing_key :
  shown (NewError (lit "Missing TMDb API key. Click the gear icon to set it."))
  = lit "Missing TMDb API key. Click the gear icon to set it.".
Proof.
  unfold shown, err_message.
  rewrite bool_decide_eq_false_2; [done|]. unfold lit. simpl. discriminate.
Qed.

Lemma reachable_no_key_idle s :
  reachable s -> nonempty (apiKey s) = false -> inflight s = [].
Proof.
  intros Hs Hk. destruct (reachable_inv s Hs) as [_ _ _ Hkey].
  destruct (inflight s) as [|r l] eqn:Hi; [done|].
  rewrite Hkey in Hk; done.
Qed.

(** The state an entry point, or a resumed piece, ends in by throwing. *)
Lemma failed_state e s :
  let s' := exec (setBusy false) (exec (notifyError e) s) in
  moviesGrid s' = [ErrorBox (shown e)]
  /\ trace s' = trace s ++ [ConsoleError e]
  /\ same_net s s'
  /\ moviesSection s' = (fun _ => Some false) <$> moviesSection s.
Proof.
  cbv zeta. split_and!.
  - by rewrite setBusy_grid.
  - by rewrite setBusy_trace.
  - eapply same_net_trans; [apply notifyError_same_net|apply setBusy_same_net].
  - rewrite setBusy_exec. unfold exec. rewrite notifyError_run. simpl.
    destruct (moviesSection s) eqn:Hsec; simpl; by rewrite ?Hsec.
Qed.

End Failures.

(** X2.  On a reachable page without a credential, an entry point whose URL
    can be built sends nothing: no controller is created, no request is
    pending, and the grid shows the text that asks for the key; the trace
    gains the call and the [console.error] only. *)
Theorem missing_key_is_reported `{Platform} (b : call) (s : browser) :
  reachable s ->
  nonempty (apiKey s) = false ->
  encodable b ->
  let s' := task (issue b) s in
  moviesGrid s'
  = [ErrorBox (lit "Missing TMDb API key. Click the gear icon to set it.")]
  /\ inflight s' = []
  /\ controllers s' = controllers s
  /\ abortController s' = abortController s
  /\ trace s'
     = trace s
         ++ [call_obs b;
             ConsoleError
               (NewError (lit "Missing TMDb API key. Click the gear icon to set it."))].
Proof.
  intros Hs Hk Hb. cbv zeta.
  pose proof (reachable_inv s Hs) as Hinv.
  pose proof (reachable_no_key_idle s Hs Hk) as Hidle.
  destruct (issue_no_dispatch b s (or_introl Hk)) as (Hnet & _ & _).
  rewrite (task_same_net _ _ (inv_microtasks _ Hinv) Hnet).
  destruct Hnet as [Ei Ea Ec _ _]. rewrite Ei, Ea, Ec, Hidle.
  rewrite issue_run. cbv zeta. fold (entered b s).
  destruct (build_encodable b (entered b s) Hb) as (url & ->). rewrite Hk.
  destruct (failed_state
              (NewError (lit "Missing TMDb API key. Click the gear icon to set it."))
              (entered b s)) as (Hg & Ht & _ & _).
  rewrite Hg, Ht, shown_missing_key. unfold entered.
  rewrite setBusy_trace. simpl. by rewrite <- app_assoc.
Qed.

Lemma missing_key_is_reported_witness :
  moviesGrid (@task demo_platform (@issue demo_platform (Search (lit "dune")))
                no_key_boot)
  = [ErrorBox (lit "Missing TMDb API key. Click the gear icon to set it.")].
Proof.
  refine (proj1 (@missing_key_is_reported demo_platform (Search (lit "dune"))
                   no_key_boot _ eq_refl _)).
  - constructor.
  - by eexists.
Defined.

(** X3.  On a reachable page, a pending fetch that ends without a usable
    body is reported, not rendered as an empty list: a body that is not JSON
    (while the body is awaited) and a connection failure (in either phase)
    leave the single error box with the platform's text for that error, no
    request pending, and one more [console.error] in the trace. *)
Theorem broken_response_is_reported `{Platform} (c : nat) (s : browser) :
  reachable s ->
  (Request c AwaitBody ∈ inflight s ->
   moviesGrid (step (Body c None) s) = [ErrorBox (shown (Platform_error BadJson))]
   /\ inflight (step (Body c None) s) = []
   /\ trace (step (Body c None) s)
      = trace s ++ [ConsoleError (Platform_error BadJson)])
  /\ (c ∈ rid <$> inflight s ->
      moviesGrid (step (NetworkError c) s)
      = [ErrorBox (shown (Platform_error NetworkDown))]
      /\ inflight (step (NetworkError c) s) = []
      /\ trace (step (NetworkError c) s)
         = trace s ++ [ConsoleError (Platform_error NetworkDown)]).
Proof.
  intros Hs. pose proof (reachable_inv s Hs) as Hinv. split.
  - intros Hin. destruct (net_inv_pending _ _ _ Hinv Hin) as (Hone & _).
    pose proof (remove_request_idle _ _ _ Hinv Hone) as Hinv1.
    simpl. rewrite bool_decide_eq_true_2 by done.
    destruct (thrown_grid (Platform_error BadJson) (remove_request c s)
                (inv_microtasks _ Hinv1)) as (Hg & Hnet & Ht).
    rewrite Hg, Ht, (same_inflight _ _ Hnet). split_and!; try done.
    unfold remove_request. simpl. by rewrite Hone, filter_rid_same.
  - intros Hin. destruct (net_inv_pending_rid _ _ Hinv Hin) as (ph & Hone).
    pose proof (remove_request_idle _ _ _ Hinv Hone) as Hinv1.
    simpl. rewrite bool_decide_eq_true_2 by done.
    destruct (thrown_grid (Platform_error NetworkDown) (remove_request c s)
                (inv_microtasks _ Hinv1)) as (Hg & Hnet & Ht).
    rewrite Hg, Ht, (same_inflight _ _ Hnet). split_and!; try done.
    unfold remove_request. simpl. by rewrite Hone, filter_rid_same.
Qed.

Lemma broken_response_is_reported_witness :
  moviesGrid (@step demo_platform (NetworkError 1)
                (@run demo_platform searching demo_boot))
  = [ErrorBox (lit "Failed to fetch")].
Proof.
  refine (proj1 (proj2 (@broken_response_is_reported demo_platform 1
                          (@run demo_platform searching demo_boot) _) _)).
  - apply reachable_run, demo_boot_reachable.
  - vm_compute. apply list_elem_of_here.
Defined.

(** ** The busy flag *)

Section Busy.
Context `{Platform}.

(** The state after an entry point that reaches [fetch]. *)
Lemma task_issue_state b s url :
  net_inv s ->
  nonempty (apiKey s) = true ->
  (build b (entered b s)).1 = Done url ->
  task (issue b) s
  = if bool_decide (inflight s = []) then dispatched url (entered b s)
    else exec (setBusy false)
           (exec (notifyError (Platform_error Aborted))
              (set_microtasks [] (dispatched url (entered b s)))).
Proof.
  intros [Hm Hin _ _] Hk Hb. unfold task. rewrite issue_run. cbv zeta.
  fold (entered b s). rewrite Hb, Hk.
  destruct (entered_same_net b s) as [Ei Ea Ec Em _].
  set (s1 := entered b s) in *.
  destruct Hin as [Hnil|(a & ph & Hone & Hctl)].
  - rewrite Hnil. simpl. apply drain_none.
    unfold dispatched. simpl. rewrite Em, Hm, Ei, Hnil. simpl.
    by destruct (abortController s1).
  - rewrite Hone. simpl. apply (drain_one a).
    unfold dispatched. simpl. rewrite Em, Hm, Ei, Hone, Ea, Hctl. simpl.
    by rewrite bool_decide_eq_true_2 by apply list_elem_of_here.
Qed.

Lemma entered_section b s x :
  moviesSection s = Some x -> moviesSection (entered b s) = Some (Some true).
Proof. intros Hx. unfold entered. rewrite setBusy_exec. simpl. by rewrite Hx. Qed.

Lemma render_data_section data s :
  moviesSection (exec (render_data data) s) = moviesSection s
  /\ (render_data data s).1 ≠ Awaiting.
Proof.
  pieces. simpl. destruct (get data "results") as [results|e]; simpl; [|done].
  match goal with |- context [mapM makeCard ?l] => by destruct (mapM makeCard l) end.
Qed.

(** A guarded piece that does not suspend leaves the flag cleared. *)
Lemma guarded_clears body s x :
  moviesSection (exec body s) = Some x ->
  (body s).1 ≠ Awaiting ->
  moviesSection (exec (guarded body) s) = Some (Some false).
Proof.
  intros Hx Hna. rewrite guarded_run. unfold exec in Hx.
  destruct (body s) as [[[]|e|] s1]; simpl in *; [| |done].
  - rewrite setBusy_exec. by rewrite Hx.
  - destruct (failed_state e s1) as (_ & _ & _ & ->). by rewrite Hx.
Qed.

End Busy.

(** X4.  The [aria-busy] flag of the results section, on a reachable page
    that has the section.  An entry point that reaches [fetch] leaves it
    [true] only if nothing was pending: when it supersedes a pending fetch,
    the [finally] of the superseded call sets it to [false] although the new
    request is pending.  The arrival of the awaited body (whatever it is) and
    a response with a failure status both leave it [false]. *)
Theorem busy_flag `{Platform} (s : browser) (x : option bool) :
  reachable s ->
  moviesSection s = Some x ->
  (forall b, nonempty (apiKey s) = true -> encodable b ->
     moviesSection (task (issue b) s) = Some (Some (bool_decide (inflight s = []))))
  /\ (forall c body, Request c AwaitBody ∈ inflight s ->
        moviesSection (step (Body c body) s) = Some (Some false))
  /\ (forall c status, Request c AwaitResponse ∈ inflight s ->
        res_ok status = false ->
        moviesSection (step (Response c status) s) = Some (Some false)).
Proof.
  intros Hs Hx. pose proof (reachable_inv s Hs) as Hinv. split_and!.
  - intros b Hk Hb.
    destruct (build_encodable b (entered b s) Hb) as (url & Hurl).
    rewrite (task_issue_state b s url Hinv Hk Hurl).
    pose proof (entered_section b s x Hx) as He.
    case_bool_decide.
    + by unfold dispatched.
    + destruct (failed_state (Platform_error Aborted)
                  (set_microtasks [] (dispatched url (entered b s))))
        as (_ & _ & _ & ->).
      unfold dispatched. simpl. by rewrite He.
  - intros c body Hin.
    destruct (net_inv_pending _ _ _ Hinv Hin) as (Hone & _).
    pose proof (remove_request_idle _ _ _ Hinv Hone) as Hinv1.
    simpl. rewrite bool_decide_eq_true_2 by done.
    set (piece := match body with
                  | Some data => render_data data
                  | None => throw (Platform_error BadJson)
                  end).
    assert (Hpiece : same_net (remove_request c s) (exec piece (remove_request c s))
                     /\ moviesSection (exec piece (remove_request c s)) = Some x
                     /\ (piece (remove_request c s)).1 ≠ Awaiting).
    { subst piece. destruct body as [data|].
      - split; [apply render_data_same_net|].
        destruct (render_data_section data (remove_request c s)) as (-> & Hna).
        done.
      - done. }
    destruct Hpiece as (Hnet & Hsec & Hna).
    rewrite (task_same_net _ _ (inv_microtasks _ Hinv1) (guarded_same_net _ _ Hnet)).
    by apply (guarded_clears _ _ x).
  - intros c status Hin Hbad.
    destruct (net_inv_pending _ _ _ Hinv Hin) as (Hone & _).
    pose proof (remove_request_idle _ _ _ Hinv Hone) as Hinv1.
    simpl. rewrite bool_decide_eq_true_2 by done.
    assert (Hnet : same_net (remove_request c s)
                     (exec (guarded (fetchJson_response c status)) (remove_request c s))).
    { rewrite response_run, Hbad.
      eapply same_net_trans; [apply notifyError_same_net|apply setBusy_same_net]. }
    rewrite (task_same_net _ _ (inv_microtasks _ Hinv1) Hnet).
    rewrite response_run, Hbad.
    destruct (failed_state
                (NewError (lit "Request failed (" ++ dec status ++ lit ")"))
                (remove_request c s)) as (_ & _ & _ & ->).
    simpl. by rewrite Hx.
Qed.

Lemma busy_flag_witness :
  inflight (@task demo_platform (@issue demo_platform (Search (lit "dune")))
              (@run demo_platform searching demo_boot))
  = [Request 2 AwaitResponse]
  /\ moviesSection (@task demo_platform (@issue demo_platform (Search (lit "dune")))
                      (@run demo_platform searching demo_boot))
     = Some (Some false).
Proof.
  split; [vm_compute; reflexivity|].
  refine (proj1 (@busy_flag demo_platform
                   (@run demo_platform searching demo_boot) (Some true) _ _)
            (Search (lit "dune")) eq_refl _).
  - apply reachable_run, demo_boot_reachable.
  - vm_compute. reflexivity.
  - by eexists.
Defined.

(** ** The handlers of the settings panel and of the search form *)

Section Handlers.
Context `{Platform}.

Lemma trending_builds s :
  (build Trending s).1
  = Done (lit "https://api.themoviedb.org/3/trending/movie/week?api_key="
            ++ key_text (apiKey s)).
Proof. done. Qed.

(** The page right after [saveApiKey(key); showSettings(false)]. *)
Lemma saved_inv key s :
  net_inv s -> 10 <= length key ->
  net_inv (set_settingsHidden true (exec (saveApiKey key) s)).
Proof.
  intros Hinv Hlen. rewrite saveApiKey_run.
  destruct (storageBlocked s); [by apply (net_inv_same s)|].
  apply (net_inv_key s); try done. simpl.
  destruct key; simpl in *; [lia|done].
Qed.

Lemma task_issue_frames b s :
  untouched s (task (issue b) s)
  /\ calls (trace (task (issue b) s)) = calls (trace s) ++ [b]
  /\ fired (trace (task (issue b) s)) = fired (trace s).
Proof.
  unfold task. destruct (issue_frames b s) as (Hu & Hc & Hf).
  rewrite (quiet_calls _ _ (drain_quiet _)), (quiet_fired _ _ (drain_quiet _)).
  split_and!; try done.
  eapply untouched_trans; [done|apply drain_untouched].
Qed.

End Handlers.

(** X5.  The save button, on a reachable page, with [key] the trimmed text
    of the credential field.  Shorter than 10 code units: one [alert], and
    nothing else changes.  Otherwise the panel is closed and [loadTrending]
    is called; with a working store the key becomes the credential, is
    written to the store, and the trending request is the one pending; with a
    blocked store [setItem] throws before the assignment, so neither the
    store nor the credential changes. *)
Theorem save_button `{Platform} (s : browser) :
  reachable s ->
  let key := trim (apiKeyInput s) in
  let s' := step Click_saveApiKeyButton s in
  (length key < 10 ->
   s' = set_trace (trace s ++ [Alert (lit "Please paste a valid TMDb API key.")]) s)
  /\ (10 <= length key -> storageBlocked s = false ->
      apiKey s' = Some key
      /\ localStorage s' = <["tmdb_api_key" := key]> (localStorage s)
      /\ settingsHidden s' = true
      /\ inflight s' = [Request (controllers s) AwaitResponse]
      /\ calls (trace s') = calls (trace s) ++ [Trending])
  /\ (10 <= length key -> storageBlocked s = true ->
      apiKey s' = apiKey s
      /\ localStorage s' = localStorage s
      /\ settingsHidden s' = true
      /\ calls (trace s') = calls (trace s) ++ [Trending]).
Proof.
  intros Hs. cbv zeta. pose proof (reachable_inv s Hs) as Hinv.
  simpl. unfold task at 1 2 3 4 5 6 7 8 9 10. rewrite on_save_run. cbv zeta.
  split_and!.
  - intros Hlen. rewrite bool_decide_eq_true_2 by done.
    apply drain_none. simpl. by destruct Hinv.
  - intros Hlen Hok. rewrite bool_decide_eq_false_2 by lia.
    pose proof (saved_inv _ _ Hinv Hlen) as Hinv1.
    rewrite saveApiKey_run, Hok in *.
    set (s1 := set_settingsHidden true _) in *.
    fold (task (issue Trending) s1).
    destruct (task_issue_frames Trending s1) as (Hu & Hc & _).
    pose proof (trending_builds (entered Trending s1)) as Hurl.
    assert (Hk1 : nonempty (apiKey s1) = true).
    { subst s1. simpl. destruct (trim (apiKeyInput s)); simpl in *; [lia|done]. }
    destruct (issue_dispatch Trending s1 _ (inv_microtasks _ Hinv1)
                (inv_inflight _ Hinv1) Hk1 Hurl) as (Hi & _).
    destruct Hu. rewrite same_apiKey0, same_localStorage0, same_settingsHidden0, Hi, Hc.
    by subst s1.
  - intros Hlen Hb. rewrite bool_decide_eq_false_2 by lia.
    rewrite saveApiKey_run, Hb.
    set (s1 := set_settingsHidden true s).
    fold (task (issue Trending) s1).
    destruct (task_issue_frames Trending s1) as (Hu & Hc & _).
    destruct Hu. rewrite same_apiKey0, same_localStorage0, same_settingsHidden0, Hc.
    by subst s1.
Qed.

Lemma save_button_witness :
  apiKey (@step demo_platform Click_saveApiKeyButton
            (@step demo_platform (Edit_apiKeyInput (lit " 0123456789abcdef ")) no_key_boot))
  = Some (lit "0123456789abcdef").
Proof.
  refine (proj1 (proj1 (proj2
    (@save_button demo_platform
       (@step demo_platform (Edit_apiKeyInput (lit " 0123456789abcdef ")) no_key_boot)
       _)) _ eq_refl)).
  - do 2 constructor.
  - vm_compute. lia.
Defined.

(** X6.  Submitting the form.  With nothing but white space in the box a
    reachable page stays exactly as it is.  Otherwise [searchMovies] is
    called at once with the trimmed text, whatever its length, and the
    handler leaves the clock, the pending timeout and the stored timer id
    alone: a keystroke's timeout survives the submission.  So typing a text
    of 3 characters or more and submitting it within 300 ms searches for it
    twice, once on the submission and once when the timeout fires. *)
Theorem submit_searches_at_once `{Platform} (s : browser) :
  let q := trim (searchInput s) in
  (reachable s -> length q = 0 -> step Submit_searchForm s = s)
  /\ (length q <> 0 ->
      calls (trace (step Submit_searchForm s)) = calls (trace s) ++ [Search q]
      /\ timers (step Submit_searchForm s) = timers s
      /\ debounceTimer (step Submit_searchForm s) = debounceTimer s)
  /\ (forall text wait,
        timers s = [] -> 3 <= length (trim text) -> (300 <= wait)%N ->
        calls (trace (run [Input_searchInput text; Submit_searchForm; Elapse wait] s))
        = calls (trace s) ++ [Search (trim text); Search (trim text)]).
Proof.
  cbv zeta.
  assert (Hsubmit : forall s0, length (trim (searchInput s0)) <> 0 ->
            calls (trace (step Submit_searchForm s0))
            = calls (trace s0) ++ [Search (trim (searchInput s0))]
            /\ untouched s0 (step Submit_searchForm s0)).
  { intros s0 Hq. simpl. unfold task. rewrite on_submit_run. cbv zeta.
    rewrite bool_decide_eq_false_2 by done.
    fold (task (issue (Search (trim (searchInput s0)))) s0).
    by destruct (task_issue_frames (Search (trim (searchInput s0))) s0) as (? & ? & _). }
  split_and!.
  - intros Hs Hq. simpl. unfold task. rewrite on_submit_run. cbv zeta.
    rewrite bool_decide_eq_true_2 by done.
    apply drain_none. by destruct (reachable_inv s Hs).
  - intros Hq. destruct (Hsubmit s Hq) as (Hc & []). by split_and!.
  - intros text wait Hidle Hlen Hwait.
    destruct (input_step text s (or_introl Hidle)) as (Ht & Hd & Hcl & _ & Hc1).
    change (run [Input_searchInput text; Submit_searchForm; Elapse wait] s)
      with (step (Elapse wait)
              (step Submit_searchForm (step (Input_searchInput text) s))).
    set (s1 := step (Input_searchInput text) s) in *.
    assert (Hbox : searchInput s1 = text).
    { subst s1. simpl. unfold task.
      rewrite (same_searchInput _ _ (drain_untouched _)).
      wiring. simpl. by destruct (debounceTimer s). }
    destruct (Hsubmit s1) as (Hc2 & Hu); [rewrite Hbox; lia|].
    rewrite Hbox in Hc2. destruct Hu.
    set (s2 := step Submit_searchForm s1) in *.
    assert (Ht2 : timers s2 = [Timer (timerIds s) (clock s + 300) (trim text)])
      by (by rewrite same_timers0).
    rewrite (elapse_due wait _ _ _ s2 Ht2) by (rewrite same_clock0; lia).
    destruct (debounced_trace (trim text)
                (set_timers [] (set_clock (clock s2 + wait) s2))) as (_ & Hc3 & _).
    rewrite Hc3. simpl. rewrite Hc2, Hc1. unfold debounced_calls.
    rewrite bool_decide_eq_true_2 by done. by rewrite <- app_assoc.
Qed.

Lemma submit_searches_at_once_witness :
  calls (trace (@run demo_platform
                  [Input_searchInput (lit "dune"); Submit_searchForm; Elapse 300]
                  demo_boot))
  = calls (trace demo_boot) ++ [Search (lit "dune"); Search (lit "dune")].
Proof.
  refine (proj2 (proj2 (@submit_searches_at_once demo_platform demo_boot))
            (lit "dune") 300%N _ _ _).
  - vm_compute. reflexivity.
  - vm_compute. lia.
  - vm_compute. discriminate.
Defined.

(** ** Start-up and the next session *)

Section Sessions.
Context `{Platform}.

Lemma loadApiKey_frame s :
  let s' := exec loadApiKey s in
  inflight s' = inflight s /\ abortController s' = abortController s
  /\ controllers s' = controllers s /\ microtasks s' = microtasks s
  /\ trace s' = trace s /\ moviesGrid s' = moviesGrid s
  /\ settingsHidden s' = settingsHidden s /\ moviesSection s' = moviesSection s
  /\ (nonempty (apiKey s') = false -> apiKey s = None -> apiKey s' = None).
Proof.
  cbv zeta. script. destruct (storageBlocked s); simpl; [ by split_and! | ].
  destruct (localStorage s !! "tmdb_api_key") as [k|]; simpl; [ | by split_and! ].
  case_bool_decide; simpl; [ | by split_and! ].
  destruct k; simpl in *; [ lia | by split_and! ].
Qed.

End Sessions.

(** X7.  What start-up decides.  If [loadApiKey] adopted a credential, the
    page comes up with the trending request, built with that credential,
    as the only thing sent and pending, the busy flag set and the settings
    panel as the markup has it; otherwise it comes up with the settings
    panel open, nothing sent and the grid empty. *)
Theorem boot_decides `{Platform} (blocked : bool) (store : gmap string jsstr)
    (field : jsstr) (hidden : bool) (section : option (option bool)) :
  let s := boot blocked store field hidden section in
  (forall k, apiKey s = Some k ->
     inflight s = [Request 0 AwaitResponse]
     /\ trace s
        = [TrendingCalled;
           FetchCalled 0
             (lit "https://api.themoviedb.org/3/trending/movie/week?api_key=" ++ k)]
     /\ settingsHidden s = hidden
     /\ moviesGrid s = []
     /\ moviesSection s = (fun _ => Some true) <$> section)
  /\ (apiKey s = None ->
      inflight s = [] /\ trace s = [] /\ settingsHidden s = false
      /\ moviesGrid s = [] /\ moviesSection s = section).
Proof.
  cbv zeta. unfold boot, task. rewrite init_run. cbv zeta.
  set (s0 := page blocked store field hidden section).
  destruct (loadApiKey_frame s0)
    as (Ei & Ea & Ec & Em & Ht & Hg & Hh & Hsec & Hnone).
  set (s1 := exec loadApiKey s0) in *.
  destruct (nonempty (apiKey s1)) eqn:Hk.
  - assert (Hinv : net_inv s1).
    { constructor; rewrite ?Ei, ?Ea, ?Ec, ?Em; simpl; auto. done. }
    fold (task (issue Trending) s1).
    assert (Hkey : apiKey (entered Trending s1) = apiKey s1)
      by apply (entered_untouched Trending s1).
    rewrite (task_issue_state Trending s1
               (lit "https://api.themoviedb.org/3/trending/movie/week?api_key="
                  ++ key_text (apiKey (entered Trending s1)))
               Hinv Hk (trending_builds _)).
    rewrite Ei. rewrite Hkey. simpl. unfold dispatched.
    destruct (entered_same_net Trending s1) as [Fi Fa Fc _ _].
    split.
    + intros k Hk1. simpl in Hk1. rewrite Hkey in Hk1. simpl.
      rewrite Fi, Fa, Fc, Ei, Ea, Ec, Hk1, entered_grid, Hg. unfold entered.
      rewrite setBusy_trace, setBusy_exec. simpl. rewrite Ht, Hsec. simpl.
      split_and!; try done.
      * destruct section; simpl; by rewrite ?Hh.
      * by destruct section.
    + simpl. rewrite Hkey. intros Hnone'. by rewrite Hnone' in Hk.
  - rewrite drain_none by (simpl; by rewrite Em). simpl.
    rewrite Ei, Ht, Hg, Hsec. split; [|done].
    intros k Hk1. rewrite Hk1 in Hk. simpl in Hnone.
    specialize (Hnone eq_refl eq_refl). congruence.
Qed.

(** X8.  A key saved through the settings panel is the credential of the
    next session: on a reachable page with a working store, after the save
    button accepted the trimmed text of the field, a page that starts from
    the store as it then is adopts exactly that text and shows it in its
    credential field. *)
Theorem saved_key_survives_reload `{Platform} (s : browser)
    (field : jsstr) (hidden : bool) (section : option (option bool)) :
  reachable s ->
  storageBlocked s = false ->
  10 <= length (trim (apiKeyInput s)) ->
  let store := localStorage (step Click_saveApiKeyButton s) in
  apiKey (boot false store field hidden section) = Some (trim (apiKeyInput s))
  /\ apiKeyInput (boot false store field hidden section) = trim (apiKeyInput s).
Proof.
  intros Hs Hok Hlen. cbv zeta.
  assert (Hstore : localStorage (step Click_saveApiKeyButton s)
                   = <["tmdb_api_key" := trim (apiKeyInput s)]> (localStorage s)).
  { simpl. unfold task.
    rewrite (same_localStorage _ _ (drain_untouched _)), on_save_run. cbv zeta.
    rewrite bool_decide_eq_false_2 by lia.
    destruct (issue_frames Trending
                (set_settingsHidden true (exec (saveApiKey (trim (apiKeyInput s))) s)))
      as ([] & _).
    rewrite same_localStorage0, saveApiKey_run, Hok. done. }
  rewrite Hstore.
  destruct (boot_untouched false (<["tmdb_api_key" := trim (apiKeyInput s)]> (localStorage s))
              field hidden section) as (-> & ->).
  rewrite loadApiKey_apiKey, loadApiKey_field by done. simpl.
  rewrite lookup_insert_eq. by rewrite !bool_decide_eq_true_2 by lia.
Qed.

Lemma saved_key_survives_reload_witness :
  apiKey (@boot demo_platform false
            (localStorage
               (@step demo_platform Click_saveApiKeyButton
                  (@step demo_platform (Edit_apiKeyInput (lit " 0123456789abcdef "))
                     no_key_boot)))
            [] true None)
  = Some (lit "0123456789abcdef").
Proof.
  refine (proj1 (@saved_key_survives_reload demo_platform
                   (@step demo_platform (Edit_apiKeyInput (lit " 0123456789abcdef "))
                      no_key_boot)
                   [] true None _ _ _)).
  - do 2 constructor.
  - vm_compute. reflexivity.
  - vm_compute. lia.
Defined.

Lemma boot_decides_witness :
  settingsHidden no_key_boot = false.
Proof.
  refine (proj1 (proj2 (proj2
    (proj2 (@boot_decides demo_platform false ∅ [] true (Some None)) _)))).
  vm_compute. reflexivity.
Defined.

(** ** Rendering a result list *)

Section Rendering.
Context `{Platform}.

Lemma mapM_makeCard_Forall2 (items : list value) (cards : list card) :
  mapM makeCard items = Ok cards
  <-> Forall2 (fun m c => makeCard m = Ok c) items cards.
Proof.
  revert cards. induction items as [|m items IH]; intros cards; simpl.
  - split.
    + intros [= <-]. constructor.
    + intros Hf. by inversion Hf.
  - destruct (makeCard m) as [c|e] eqn:Hm; simpl.
    + destruct (mapM makeCard items) as [cs|e] eqn:Hms; simpl.
      * split.
        -- intros [= <-]. constructor; [done|]. by apply IH.
        -- intros Hf. inversion Hf as [|? c' ? cs' Hc Hcs]; subst.
           apply IH in Hcs.
           assert (c = c') by congruence. assert (cs = cs') by congruence.
           by subst.
      * split; [done|].
        intros Hf. inversion Hf as [|? c' ? cs' Hc Hcs]; subst.
        apply IH in Hcs. congruence.
    + split; [done|].
      intros Hf. inversion Hf as [|? c' ? cs' Hc Hcs]; subst. congruence.
Qed.

(** The loop stops at the first record on which [makeCard] throws. *)
Lemma mapM_makeCard_first (pre post : list value) (m : value) (e : js_error) :
  Forall (fun x => exists c, makeCard x = Ok c) pre ->
  makeCard m = Err e ->
  mapM makeCard (pre ++ m :: post) = Err e.
Proof.
  intros Hpre Hm. induction Hpre as [|x pre [c Hx] _ IH]; simpl.
  - by rewrite Hm.
  - by rewrite Hx, IH.
Qed.

Lemma render_items_run data items s :
  get data "results" = Ok (VArr items) ->
  render_data data s
  = match mapM makeCard items with
    | Ok cards => (Done tt, set_moviesGrid (CardNode <$> cards) (set_moviesGrid [] s))
    | Err e => (Thrown e, set_moviesGrid [] s)
    end.
Proof.
  intros Hget. pieces. rewrite Hget. simpl.
  by destruct (mapM makeCard items).
Qed.


(** Induction on a value through the elements of its arrays. *)
Lemma value_ind_items (P : value -> Prop) :
  P VUndefined -> P VNull -> (forall b, P (VBool b)) -> (forall x, P (VNum x)) ->
  (forall t, P (VStr t)) ->
  (forall items, Forall P items -> P (VArr items)) ->
  (forall props, P (VObj props)) ->
  forall v, P v.
Proof.
  intros Hu Hn Hb Hx Ht Harr Hobj. fix IH 1.
  intros [| |b|x|t|items|props].
  - exact Hu.
  - exact Hn.
  - apply Hb.
  - apply Hx.
  - apply Ht.
  - apply Harr. revert items. fix IHitems 1.
    intros [|x items]; constructor; [apply IH|apply IHitems].
  - apply Hobj.
Qed.

(** A conversion to a string only fails in one way. *)
Lemma to_string_err (v : value) (e : js_error) :
  to_string v = Err e -> e = Platform_error NotPrimitive.
Proof.
  revert e. induction v as [| |b|x|t|items IH|props] using value_ind_items;
    intros e; simpl; try discriminate.
  - by destruct b.
  - destruct (mapM _ items) as [texts|e'] eqn:Hitems; simpl; [discriminate|].
    intros [= <-]. revert e' Hitems.
    induction IH as [|x items Hx _ IHitems]; intros e' Hitems; simpl in Hitems;
      [discriminate|].
    destruct (match x with VUndefined | VNull => Ok [] | _ => to_string x end)
      as [text|e0] eqn:Hx0; simpl in Hitems.
    + destruct (mapM _ items) as [texts|e1] eqn:Hrest; simpl in Hitems;
        [discriminate|].
      injection Hitems as <-. by apply IHitems.
    + injection Hitems as <-.
      destruct x; try discriminate; exact (Hx _ Hx0).
  - destruct (has_own "toString" props); [by intros [= <-]|discriminate].
Qed.

Lemma printable_or_not (v : value) :
  printable v \/ to_string v = Err (Platform_error NotPrimitive).
Proof.
  destruct (to_string v) as [text|e] eqn:Hv; [left; by exists text|].
  right. by rewrite (to_string_err v e Hv).
Qed.






End Rendering.

(** X9.  Rendering is all or nothing and keeps the order.  On a reachable
    page, when the awaited body has a list as [results]: if every record
    makes a card, the grid holds exactly those cards, one per record in the
    order of the list, and nothing is reported; if [makeCard] throws on some
    record, the loop stops at the first such record and no card at all is
    shown: the grid is the single error box with the message of the error
    thrown on that first record, which is also what [console.error] gets.
    Either way no request is left pending. *)
Theorem body_renders_in_order `{Platform} (c : nat) (data : value)
    (items : list value) (s : browser) :
  reachable s ->
  Request c AwaitBody ∈ inflight s ->
  get data "results" = Ok (VArr items) ->
  let s' := step (Body c (Some data)) s in
  inflight s' = []
  /\ (forall cards,
        Forall2 (fun m card => makeCard m = Ok card) items cards ->
        moviesGrid s' = CardNode <$> cards /\ trace s' = trace s)
  /\ (forall pre m post e,
        items = pre ++ m :: post ->
        Forall (fun x => exists card, makeCard x = Ok card) pre ->
        makeCard m = Err e ->
        moviesGrid s' = [ErrorBox (shown e)]
        /\ trace s' = trace s ++ [ConsoleError e]).
Proof.
  intros Hs Hin Hget. cbv zeta.
  pose proof (reachable_inv s Hs) as Hinv.
  destruct (net_inv_pending _ _ _ Hinv Hin) as (Hone & _).
  pose proof (remove_request_idle _ _ _ Hinv Hone) as Hinv1.
  simpl. rewrite bool_decide_eq_true_2 by done.
  set (s1 := remove_request c s) in *.
  pose proof (guarded_same_net _ _ (render_data_same_net data s1)) as Hnet.
  rewrite (task_same_net _ _ (inv_microtasks _ Hinv1) Hnet).
  assert (Hidle : inflight s1 = []).
  { subst s1. unfold remove_request. simpl. by rewrite Hone, filter_rid_same. }
  split_and!.
  - by rewrite (same_inflight _ _ Hnet).
  - intros cards Hcards. apply mapM_makeCard_Forall2 in Hcards.
    rewrite guarded_run, (render_items_run data items s1 Hget), Hcards.
    by rewrite setBusy_grid, setBusy_trace.
  - intros pre m post e -> Hpre Hm.
    rewrite guarded_run, (render_items_run data _ s1 Hget).
    rewrite (mapM_makeCard_first pre post m e Hpre Hm).
    destruct (failed_state e (set_moviesGrid [] s1)) as (Hg & Ht & _).
    by rewrite Hg, Ht.
Qed.

Lemma body_renders_in_order_witness :
  moviesGrid (@step demo_platform
                (Body 1 (Some (VObj [(lit "results", VArr [dune; VNull; tagged])])))
                (@run demo_platform (searching ++ [Response 1 200%N]) demo_boot))
  = [ErrorBox (@shown demo_platform (Platform_error NullAccess))]
  /\ trace (@step demo_platform
               (Body 1 (Some (VObj [(lit "results", VArr [dune; VNull; tagged])])))
               (@run demo_platform (searching ++ [Response 1 200%N]) demo_boot))
     = trace (@run demo_platform (searching ++ [Response 1 200%N]) demo_boot)
       ++ [ConsoleError (Platform_error NullAccess)].
Proof.
  refine (proj2 (proj2
    (@body_renders_in_order demo_platform 1
       (VObj [(lit "results", VArr [dune; VNull; tagged])]) [dune; VNull; tagged]
       (@run demo_platform (searching ++ [Response 1 200%N]) demo_boot)
       (reachable_run _ _ demo_boot_reachable) _ _))
    [dune] VNull [tagged] (Platform_error NullAccess) _ _ _).
  - vm_compute. apply list_elem_of_here.
  - vm_compute. reflexivity.
  - reflexivity.
  - constructor; [|constructor]. exists dune_card. reflexivity.
  - reflexivity.
Defined.



(** ** What an event leaves alone *)

Section Keeping.
Context `{Platform}.

Lemma untouched_same_store s s' : untouched s s' -> same_store s s'.
Proof. by intros []. Qed.

Lemma untouched_same_timing s s' : untouched s s' -> same_timing s s'.
Proof. by intros []. Qed.

Lemma same_timing_trans s1 s2 s3 :
  same_timing s1 s2 -> same_timing s2 s3 -> same_timing s1 s3.
Proof. intros (? & ? & ? & ?) (? & ? & ? & ?). split_and!; congruence. Qed.

Lemma same_store_trans s1 s2 s3 :
  same_store s1 s2 -> same_store s2 s3 -> same_store s1 s3.
Proof. intros (? & ? & ?) (? & ? & ?). split_and!; congruence. Qed.

Lemma render_data_untouched data s : untouched s (exec (render_data data) s).
Proof.
  pieces. destruct (get data "results") as [v|e]; simpl; [|done].
  by destruct (mapM makeCard _).
Qed.

Lemma task_guarded_untouched body c s :
  (forall s1, untouched s1 (exec body s1)) ->
  untouched s (task (guarded body) (remove_request c s)).
Proof.
  intros Hbody. unfold task.
  eapply untouched_trans; [|apply drain_untouched].
  apply untouched_trans with (remove_request c s); [done|].
  apply (guarded_keeps untouched).
  - apply untouched_trans.
  - intros. apply setBusy_untouched.
  - intros. apply notifyError_untouched.
  - apply Hbody.
Qed.

Lemma task_response_untouched c status s :
  untouched s (task (guarded (fetchJson_response c status)) (remove_request c s)).
Proof.
  unfold task. eapply untouched_trans; [|apply drain_untouched].
  apply untouched_trans with (remove_request c s); [done|].
  rewrite response_run. destruct (res_ok status); [done|].
  eapply untouched_trans; [apply notifyError_untouched|apply setBusy_untouched].
Qed.

Lemma fire_same_store t s : same_store s (fire t s).
Proof.
  unfold fire. case_bool_decide; [|done].
  destruct (debounced_trace (query t)
              (set_timers (filter (fun t' => tid t' ≠ tid t) (timers s)) s))
    as (_ & _ & Hu).
  by apply untouched_same_store in Hu.
Qed.

Lemma showSettings_run open s :
  task (showSettings open) s = drain (set_settingsHidden (negb open) s).
Proof. unfold task. wiring. by destruct open. Qed.

(** Which events can change the credential or the timeouts: the save button
    alone the first, the search box and the clock alone the second. *)
Lemma step_keeps ev s :
  match ev with
  | Click_saveApiKeyButton => same_timing s (step ev s)
  | Input_searchInput _ | Elapse _ => same_store s (step ev s)
  | _ => same_store s (step ev s) /\ same_timing s (step ev s)
  end.
Proof.
  assert (Hboth : forall s', untouched s s' -> same_store s s' /\ same_timing s s').
  { intros s' Hu. split; [by apply untouched_same_store|by apply untouched_same_timing]. }
  assert (Hshow : forall open,
            same_store s (task (showSettings open) s)
            /\ same_timing s (task (showSettings open) s)).
  { intros open. rewrite showSettings_run.
    destruct (drain_untouched (set_settingsHidden (negb open) s)) as [].
    by split; split_and!. }
  destruct ev as [| |back|text| | |text|ms|c status|c body|c]; simpl.
  - apply Hshow.
  - apply Hshow.
  - destruct back; [apply Hshow|]. apply Hboth. apply drain_untouched.
  - done.
  - unfold task.
    eapply same_timing_trans; [|apply untouched_same_timing, drain_untouched].
    rewrite on_save_run. cbv zeta. case_bool_decide; [done|].
    destruct (issue_frames Trending
                (set_settingsHidden true (exec (saveApiKey (trim (apiKeyInput s))) s)))
      as (Hu & _).
    eapply same_timing_trans; [|apply untouched_same_timing, Hu].
    rewrite saveApiKey_run. by destruct (storageBlocked s).
  - unfold task. apply Hboth.
    eapply untouched_trans; [|apply drain_untouched].
    rewrite on_submit_run. cbv zeta. case_bool_decide; [apply untouched_refl|].
    apply issue_frames.
  - unfold task.
    eapply same_store_trans; [|apply untouched_same_store, drain_untouched].
    wiring. simpl. by destruct (debounceTimer s).
  - unfold elapse.
    apply same_store_trans with (set_clock (clock s + ms) s); [done|].
    apply (foldl_keeps same_store).
    + done.
    + apply same_store_trans.
    + intros. apply fire_same_store.
  - case_bool_decide; [|by apply Hboth, untouched_refl].
    apply Hboth, task_response_untouched.
  - case_bool_decide; [|by apply Hboth, untouched_refl].
    apply Hboth, task_guarded_untouched. intros s1.
    destruct body as [data|]; [apply render_data_untouched|done].
  - case_bool_decide; [|by apply Hboth, untouched_refl].
    by apply Hboth, task_guarded_untouched.
Qed.

Lemma boot_key_long blocked store field hidden section k :
  apiKey (boot blocked store field hidden section) = Some k -> 5 < length k.
Proof.
  destruct (boot_untouched blocked store field hidden section) as (-> & _).
  destruct blocked.
  - by rewrite loadApiKey_blocked.
  - rewrite loadApiKey_apiKey by done. simpl.
    destruct (store !! "tmdb_api_key") as [k0|]; [|done].
    case_bool_decide; [|done]. by intros [= <-].
Qed.

(** What the save button does to the credential. *)
Lemma save_key s :
  apiKey (step Click_saveApiKeyButton s)
  = if bool_decide (length (trim (apiKeyInput s)) < 10) then apiKey s
    else if storageBlocked s then apiKey s
    else Some (trim (apiKeyInput s)).
Proof.
  simpl. unfold task. rewrite (same_apiKey _ _ (drain_untouched _)).
  rewrite on_save_run. cbv zeta. case_bool_decide; [done|].
  destruct (issue_frames Trending
              (set_settingsHidden true (exec (saveApiKey (trim (apiKeyInput s))) s)))
    as (Hu & _).
  rewrite (same_apiKey _ _ Hu), saveApiKey_run.
  by destruct (storageBlocked s).
Qed.

Lemma step_key_set ev s :
  nonempty (apiKey s) = true -> nonempty (apiKey (step ev s)) = true.
Proof.
  intros Hkey.
  assert (Hsame : same_store s (step ev s) -> nonempty (apiKey (step ev s)) = true).
  { intros (-> & _). done. }
  pose proof (step_keeps ev s) as Hk.
  destruct ev; try (by apply Hsame; first [apply Hk|apply (proj1 Hk)]).
  rewrite save_key. case_bool_decide as Hlen; [done|].
  destruct (storageBlocked s); [done|].
  destruct (trim (apiKeyInput s)); simpl in *; [lia|done].
Qed.

Lemma timer_inv_same s s' : same_timing s s' -> timer_inv s -> timer_inv s'.
Proof.
  intros (Ht & Hd & Hc & Hq) [Hnil|(i & d & Hone & Hi & Hlo & Hhi)].
  - left. by rewrite Ht.
  - right. exists i, d. by rewrite Ht, Hd, Hc, Hq.
Qed.

Lemma timer_inv_armed s : timer_inv s -> armed s.
Proof.
  intros [Hnil|(i & d & Hone & Hi & Hlo & _)]; [by left|].
  right. by exists i, d, (trim (searchInput s)).
Qed.

Lemma step_timer_inv ev s : timer_inv s -> timer_inv (step ev s).
Proof.
  intros Hinv. pose proof (step_keeps ev s) as Hk.
  destruct ev as [| |back|text| | |text|ms|c status|c body|c];
    try (by apply (timer_inv_same s); [ first [apply Hk|apply (proj2 Hk)] | ]).
  - destruct (input_step text s (timer_inv_armed s Hinv)) as (Ht & Hd & Hc & _).
    right. exists (timerIds s), (clock s + 300)%N.
    rewrite Ht, Hd, Hc. split_and!; try done; try lia.
    do 2 f_equal. simpl. unfold task.
    rewrite (same_searchInput _ _ (drain_untouched _)).
    wiring. simpl. by destruct (debounceTimer s).
  - destruct Hinv as [Hnil|(i & d & Hone & Hi & Hlo & Hhi)].
    + rewrite (elapse_idle ms s Hnil). by left.
    + destruct (decide (clock s + ms < d)%N) as [Hearly|Hdue].
      * rewrite (elapse_early ms _ _ _ s Hone Hearly).
        right. exists i, d. simpl. split_and!; try done. lia.
      * rewrite (elapse_due ms _ _ _ s Hone) by lia.
        destruct (debounced_trace (trim (searchInput s))
                    (set_timers [] (set_clock (clock s + ms) s))) as (_ & _ & Hu).
        left. by rewrite (same_timers _ _ Hu).
Qed.

Lemma boot_timer_inv blocked store field hidden section :
  timer_inv (boot blocked store field hidden section).
Proof.
  left. unfold boot, task.
  rewrite (same_timers _ _ (drain_untouched _)), init_run. cbv zeta.
  set (s0 := page blocked store field hidden section).
  assert (Ht : timers (exec loadApiKey s0) = []).
  { script. destruct blocked; simpl; [done|].
    destruct (store !! "tmdb_api_key") as [k|]; simpl; [|done].
    case_bool_decide; [|done]. by destruct (nonempty _). }
  destruct (nonempty _); [|done].
  by rewrite (same_timers _ _ (proj1 (issue_frames Trending _))).
Qed.

Lemma reachable_key_long s k : reachable s -> apiKey s = Some k -> 5 < length k.
Proof.
  intros Hs. revert k.
  induction Hs as [blocked store field hidden section|ev s Hs IH]; intros k Hk.
  - by eapply boot_key_long.
  - pose proof (step_keeps ev s) as Hkeep.
    assert (Hsame : same_store s (step ev s) -> 5 < length k).
    { intros (Heq & _). apply IH. by rewrite <- Heq. }
    destruct ev; try (by apply Hsame; first [apply Hkeep|apply (proj1 Hkeep)]).
    rewrite save_key in Hk. case_bool_decide as Hlen; [by apply IH|].
    destruct (storageBlocked s); [by apply IH|].
    injection Hk as <-. lia.
Qed.

Lemma trim_start_suffix (s : jsstr) : exists pre, s = pre ++ trim_start s.
Proof.
  induction s as [|c s [pre Hpre]]; simpl; [by exists []|].
  destruct (is_space c); [|by exists []].
  exists (c :: pre). simpl. by rewrite <- Hpre.
Qed.

Lemma trim_start_head (s : jsstr) c :
  head (trim_start s) = Some c -> is_space c = false.
Proof.
  induction s as [|a s IH]; simpl; [done|].
  destruct (is_space a) eqn:Ha; [done|]. simpl. by intros [= <-].
Qed.

Lemma trim_start_id (s : jsstr) :
  (forall c, head s = Some c -> is_space c = false) -> trim_start s = s.
Proof. destruct s as [|a s]; simpl; [done|]. intros Hc. by rewrite (Hc a). Qed.

Lemma trim_head (s : jsstr) c : head (trim s) = Some c -> is_space c = false.
Proof.
  unfold trim. intros Hc.
  destruct (trim_start_suffix (reverse (trim_start s))) as [pre Hpre].
  apply (f_equal reverse) in Hpre.
  rewrite reverse_involutive, reverse_app in Hpre.
  apply (trim_start_head s). rewrite Hpre.
  by destruct (reverse (trim_start (reverse (trim_start s)))).
Qed.

(** The listener trims the text and [buildSearchUrl] trims it again. *)
Lemma trim_idem (s : jsstr) : trim (trim s) = trim s.
Proof.
  unfold trim at 1. rewrite (trim_start_id (trim s)) by apply trim_head.
  unfold trim. rewrite reverse_involutive.
  by rewrite (trim_start_id (trim_start _)) by apply trim_start_head.
Qed.

Lemma search_url_built q k enc s :
  apiKey s = Some k ->
  encodeURIComponent (trim q) = Some enc ->
  (build (Search (trim q)) (entered (Search (trim q)) s)).1
  = Done (lit "https://api.themoviedb.org/3/search/movie?api_key=" ++ k
          ++ lit "&query=" ++ enc
          ++ lit "&include_adult=false&language=en-US&page=1").
Proof.
  intros Hk Henc. unfold build, buildSearchUrl. rewrite trim_idem, Henc.
  wiring. simpl.
  by rewrite (same_apiKey _ _ (entered_untouched (Search (trim q)) s)), Hk.
Qed.

Lemma dispatched_fetch b url s :
  net_inv s -> nonempty (apiKey s) = true ->
  (build b (entered b s)).1 = Done url ->
  FetchCalled (controllers s) url ∈ trace (task (issue b) s).
Proof.
  intros Hinv Hkey Hurl. rewrite (task_issue_state b s url Hinv Hkey Hurl).
  assert (Hc : controllers (entered b s) = controllers s).
  { unfold entered. by rewrite (same_controllers _ _ (setBusy_same_net _ _)). }
  assert (Hd : FetchCalled (controllers s) url ∈ trace (dispatched url (entered b s))).
  { simpl. rewrite Hc, !elem_of_app. right. right. apply list_elem_of_here. }
  case_bool_decide; [done|].
  rewrite setBusy_trace. unfold exec. rewrite notifyError_run. simpl.
  rewrite Hc, !elem_of_app. left. right. right. apply list_elem_of_here.
Qed.

End Keeping.

(** X11.  The credential changes on the save button only.  On a reachable
    page a held credential is longer than five characters; every event other
    than a click on the save button leaves the credential, the store and its
    availability as they are; and once a credential is held, the page holds
    one after any further events (a later save can replace it, nothing
    removes it). *)
Theorem credential_changes_on_save_only `{Platform} (s : browser) :
  reachable s ->
  (forall k, apiKey s = Some k -> 5 < length k)
  /\ (forall ev, ev <> Click_saveApiKeyButton -> same_store s (step ev s))
  /\ (forall evs, nonempty (apiKey s) = true ->
                  nonempty (apiKey (run evs s)) = true).
Proof.
  intros Hs. split_and!.
  - intros k. by apply reachable_key_long.
  - intros ev Hev. pose proof (step_keeps ev s) as Hkeep.
    destruct ev; try done; first [apply Hkeep|apply (proj1 Hkeep)].
  - intros evs. clear Hs. revert s.
    induction evs as [|ev evs IH]; intros s Hkey; [done|].
    apply (IH (step ev s)). by apply step_key_set.
Qed.

Lemma credential_changes_on_save_only_witness :
  5 < length (lit "0123456789abcdef").
Proof.
  refine (proj1 (@credential_changes_on_save_only demo_platform
                   (@run demo_platform searching demo_boot)
                   (reachable_run _ _ demo_boot_reachable))
            (lit "0123456789abcdef") _).
  vm_compute. reflexivity.
Defined.

(** X12.  The debounce discipline.  On a reachable page at most one timeout
    is pending; if one is, it is the one whose id the input listener stored,
    it carries the trimmed text the search box holds now, and it is due in
    the future, at most 300 ms ahead. *)
Theorem one_timeout_pending `{Platform} (s : browser) :
  reachable s -> timer_inv s.
Proof.
  induction 1 as [blocked store field hidden section|ev s Hs IH].
  - apply boot_timer_inv.
  - by apply step_timer_inv.
Qed.

Lemma one_timeout_pending_witness :
  timer_inv (@run demo_platform
               [Input_searchInput (lit "du"); Elapse 100; Input_searchInput (lit "dune ")]
               demo_boot).
Proof.
  apply (@one_timeout_pending demo_platform).
  apply reachable_run, demo_boot_reachable.
Defined.

(** X13.  The settings listeners.  On a reachable page a click on the gear
    shows the modal, a click on the close button or on the backdrop hides
    it, a click inside the modal's content does nothing; apart from the
    focus, which [showSettings(true)] moves to the credential field and
    which is not part of the state here, none of them changes anything else:
    no request is sent or aborted, the grid and the credential stay. *)
Theorem settings_clicks `{Platform} (s : browser) :
  reachable s ->
  step Click_settingsButton s = set_settingsHidden false s
  /\ step Click_closeSettingsButton s = set_settingsHidden true s
  /\ step (Click_settingsModal true) s = set_settingsHidden true s
  /\ step (Click_settingsModal false) s = s.
Proof.
  intros Hs. pose proof (inv_microtasks _ (reachable_inv s Hs)) as Hm.
  simpl. rewrite !showSettings_run. unfold task.
  by rewrite !drain_none.
Qed.

Lemma settings_clicks_witness :
  settingsHidden (@step demo_platform Click_settingsButton demo_boot) = false.
Proof.
  rewrite (proj1 (@settings_clicks demo_platform demo_boot demo_boot_reachable)).
  reflexivity.
Defined.

(** X14.  The URL of a search.  On a reachable page that holds the
    credential [k], submitting the form with a text whose trimmed form is not
    empty and is encoded by [encodeURIComponent] as [enc] makes exactly one
    further [fetch] call, on a new controller, and its URL is the search
    endpoint with [k] as [api_key], [enc] as [query] (the text is trimmed by
    the listener and again by [buildSearchUrl], which changes nothing), the
    fixed [include_adult] and [language] parameters and page 1. *)
Theorem submit_fetches_search_url `{Platform} (k enc : jsstr) (s : browser) :
  reachable s ->
  apiKey s = Some k ->
  0 < length (trim (searchInput s)) ->
  encodeURIComponent (trim (searchInput s)) = Some enc ->
  let s' := step Submit_searchForm s in
  FetchCalled (controllers s)
    (lit "https://api.themoviedb.org/3/search/movie?api_key=" ++ k
     ++ lit "&query=" ++ enc
     ++ lit "&include_adult=false&language=en-US&page=1") ∈ trace s'
  /\ inflight s' = [Request (controllers s) AwaitResponse]
  /\ controllers s' = S (controllers s).
Proof.
  intros Hs Hk Hlen Henc. cbv zeta.
  pose proof (reachable_inv s Hs) as Hinv.
  assert (Hkey : nonempty (apiKey s) = true).
  { pose proof (reachable_key_long s k Hs Hk). rewrite Hk.
    destruct k; simpl in *; [lia|done]. }
  pose proof (search_url_built (searchInput s) k enc s Hk Henc) as Hurl.
  assert (Hstep : step Submit_searchForm s
                  = task (issue (Search (trim (searchInput s)))) s).
  { simpl. unfold task. rewrite on_submit_run. cbv zeta.
    by rewrite bool_decide_eq_false_2 by lia. }
  rewrite Hstep.
  destruct (issue_dispatch _ s _ (inv_microtasks _ Hinv) (inv_inflight _ Hinv) Hkey Hurl)
    as (Hi & _ & Hc & _).
  split_and!; [|done|done].
  by apply dispatched_fetch.
Qed.

Lemma submit_fetches_search_url_witness :
  FetchCalled 1
    (lit "https://api.themoviedb.org/3/search/movie?api_key="
     ++ lit "0123456789abcdef" ++ lit "&query=" ++ lit "dune"
     ++ lit "&include_adult=false&language=en-US&page=1")
  ∈ trace (@step demo_platform Submit_searchForm
             (@run demo_platform [Input_searchInput (lit "  dune ")] demo_boot)).
Proof.
  refine (proj1 (@submit_fetches_search_url demo_platform
                   (lit "0123456789abcdef") (lit "dune")
                   (@run demo_platform [Input_searchInput (lit "  dune ")] demo_boot)
                   (reachable_run _ _ demo_boot_reachable) _ _ _)).
  - vm_compute. reflexivity.
  - vm_compute. lia.
  - vm_compute. reflexivity.
Defined.

(** ** The id of a card *)

Section CardIds.
Context `{Platform}.

Lemma zero_is_falsy (x : number) : is_zero x = true -> truthy (VNum x) = false.
Proof. destruct x; simpl; try done. by intros ->. Qed.

Lemma makeCard_random_id (movie : value) (c : card) :
  makeCard movie = Ok c ->
  truthy (field movie "id") = false ->
  exists text, to_string (title_of movie) = Ok text /\ cardId c = IdRandom text.
Proof.
  intros Hc Hid.
  destruct (makeCard_holes movie c Hc) as (h & _ & _ & Ht & _ & _ & Hi).
  rewrite Hid in Hi. by exists (h_title h).
Qed.

End CardIds.

(** X15.  The id of a card.  For every record that [makeCard] turns into a
    card: a truthy [id] gives the element id [movieCard-] followed by that id
    converted to a string, so two records with the same id get the same
    element id; a missing or falsy [id], the number 0 included, gives the
    title converted to a string followed by a random suffix.  The element's
    class is [card glow] and its tab index 0. *)
Theorem makeCard_id `{Platform} (movie : value) (c : card) :
  makeCard movie = Ok c ->
  (truthy (field movie "id") = true ->
   exists text, to_string (field movie "id") = Ok text
                /\ cardId c = IdOfRecord text)
  /\ (truthy (field movie "id") = false ->
      exists text, to_string (title_of movie) = Ok text
                   /\ cardId c = IdRandom text)
  /\ (forall x, field movie "id" = VNum x -> is_zero x = true ->
        exists text, to_string (title_of movie) = Ok text
                     /\ cardId c = IdRandom text)
  /\ (forall movie' c',
        makeCard movie' = Ok c' ->
        truthy (field movie "id") = true ->
        field movie' "id" = field movie "id" ->
        cardId c' = cardId c)
  /\ cardClass c = lit "card glow"
  /\ cardTabIndex c = 0%Z.
Proof.
  intros Hc.
  destruct (makeCard_holes movie c Hc) as (h & Hcard & _ & _ & _ & _ & Hid).
  split_and!.
  - intros Ht. by rewrite Ht in Hid.
  - by apply makeCard_random_id.
  - intros x Hx Hz. apply makeCard_random_id; [done|].
    by rewrite Hx, (zero_is_falsy x Hz).
  - intros movie' c' Hc' Ht Heq.
    destruct (makeCard_holes movie' c' Hc') as (h' & _ & _ & _ & _ & _ & Hid').
    rewrite Heq, Ht in Hid'. rewrite Ht in Hid.
    destruct Hid as (text & Htext & ->). destruct Hid' as (text' & Htext' & ->).
    congruence.
  - by rewrite Hcard.
  - by rewrite Hcard.
Qed.

Lemma makeCard_id_witness :
  exists text,
    @to_string demo_platform (@title_of demo_platform dune) = Ok text
    /\ cardId dune_card = IdRandom text.
Proof.
  refine (proj1 (proj2 (@makeCard_id demo_platform dune dune_card _)) _).
  - vm_compute. reflexivity.
  - vm_compute. reflexivity.
Defined.
